(** * Discovery controller of the skill-exchange front end

    A shallow embedding of the [BrowseUsers] page component, of the
    [Pagination] component it renders and of the part of [SearchFilters]
    that calls back into it, followed by the properties of the discovery
    controller that hold (or fail) on that code.

    Conventions of the embedding.
    - A JavaScript [number] that holds a page index or a count is a [Z].
    - A JavaScript string is a [string]; its characters are read as code
      units below 256, which is all the controller ever inspects.
    - Time is counted in milliseconds, as a [nat].
    - The hook state of the component is one record, [State]; a handler
      or effect closes over the record of the render that created it, and
      state setters act on the live record kept by the runtime.
    - An [async] function is split at its [await]: the part before it
      issues a request, the part after it runs when the request settles. *)

From Stdlib Require Import ZArith List Bool String Ascii Lia Arith.
From Stdlib Require Import Sorted Permutation.
From Stdlib Require DecimalString DecimalN.
Import ListNotations.
Open Scope string_scope.
Open Scope list_scope.
Open Scope Z_scope.

(** ** JavaScript strings *)

Module JS.

(** [!!s]: a string is truthy when it is not the empty string. *)
Definition truthy (s : string) : bool :=
  match s with
  | EmptyString => false
  | String _ _ => true
  end.

(** White space and line terminators among the code units below 256:
    TAB, LF, VT, FF, CR, SPACE and NBSP. *)
Definition isWhiteSpace (c : ascii) : bool :=
  let n := nat_of_ascii c in
  ((9 <=? n) && (n <=? 13) || (n =? 32) || (n =? 160))%nat.

Fixpoint trimStart (s : string) : string :=
  match s with
  | EmptyString => EmptyString
  | String c rest => if isWhiteSpace c then trimStart rest else s
  end.

Fixpoint trimEnd (s : string) : string :=
  match s with
  | EmptyString => EmptyString
  | String c rest =>
      match trimEnd rest with
      | EmptyString => if isWhiteSpace c then EmptyString else String c EmptyString
      | kept => String c kept
      end
  end.

(** [String.prototype.trim] *)
Definition trim (s : string) : string := trimEnd (trimStart s).

(** A string of white space only (the empty string included). *)
Fixpoint blank (s : string) : bool :=
  match s with
  | EmptyString => true
  | String c rest => isWhiteSpace c && blank rest
  end.

(** [a || ''] for an optional string [a] ([undefined] is [None]). *)
Definition orEmpty (a : option string) : string :=
  match a with
  | Some s => s
  | None => ""
  end.

(** A parameter with a default value: the default is taken exactly when
    the argument is [undefined]. *)
Definition orDefault {A : Type} (dflt : A) (a : option A) : A :=
  match a with
  | Some v => v
  | None => dflt
  end.

End JS.

(** ** The [Pagination] component: which buttons it shows *)

Inductive PageItem : Type :=
| Page (n : Z)
| ellipsis.

(** The indices visited by [for (let i = lo; i <= hi; i++)]. *)
Definition upto (lo hi : Z) : list Z :=
  map (fun k => lo + Z.of_nat k) (seq 0 (Z.to_nat (hi - lo + 1))).

Definition generatePageNumbers (currentPage totalPages : Z) : list PageItem :=
  let maxVisiblePages := 5 in
  if totalPages <=? maxVisiblePages then
    map Page (upto 1 totalPages)
  else
    Page 1 ::
    (if currentPage <=? 3 then
       map Page (upto 2 4) ++ [ellipsis; Page totalPages]
     else if currentPage >=? totalPages - 2 then
       ellipsis ::
       map Page (filter (fun i => 1 <? i) (upto (totalPages - 3) totalPages))
     else
       ellipsis ::
       map Page (upto (currentPage - 1) (currentPage + 1))
       ++ [ellipsis; Page totalPages]).

(** ** Data exchanged with the service (data-contracts.ts)

    Only the fields the controller reads or writes are kept; a user
    preview is opaque to it. *)

Record UserPreview : Type := {
  user_id : string;
  user_name : string
}.

Module BrowseUsersResponse.
Record t : Type := {
  users : list UserPreview;
  total_count : Z;
  page : Z;
  page_size : Z;
  total_pages : Z;
  has_next : bool;
  has_previous : bool
}.
End BrowseUsersResponse.

Module SearchUsersResponse.
Record t : Type := {
  users : list UserPreview;
  total_count : Z
}.
End SearchUsersResponse.

(** Query parameters; an absent key of the JavaScript object is [None]. *)
Module BrowseUsersParams.
Record t : Type := {
  page : Z;
  page_size : Z;
  skill_filter : option string;
  location_filter : option string
}.
End BrowseUsersParams.

Module SearchUsersParams.
Record t : Type := {
  q : string;
  limit : Z
}.
End SearchUsersParams.

(** The two calls the controller makes on the [brain] client. *)
Inductive Request : Type :=
| browse_users (params : BrowseUsersParams.t)
| search_users (params : SearchUsersParams.t).

Inductive Mode : Type :=
| Browse
| Search.

(** ** Hook state of [BrowseUsers]

    One field per [useState] of the component that the controller logic
    touches, under the name of its state variable. *)

Record State : Type := {
  users : list UserPreview;
  loading : bool;
  searchQuery : string;
  searchLoading : bool;
  showFilters : bool;
  currentPage : Z;
  totalPages : Z;
  totalCount : Z;
  hasNext : bool;
  hasPrevious : bool;
  skillFilter : string;
  locationFilter : string
}.

Definition setUsers (v : list UserPreview) (s : State) : State :=
  {| users := v; loading := loading s; searchQuery := searchQuery s;
     searchLoading := searchLoading s; showFilters := showFilters s;
     currentPage := currentPage s; totalPages := totalPages s;
     totalCount := totalCount s; hasNext := hasNext s;
     hasPrevious := hasPrevious s; skillFilter := skillFilter s;
     locationFilter := locationFilter s |}.

Definition setLoading (v : bool) (s : State) : State :=
  {| users := users s; loading := v; searchQuery := searchQuery s;
     searchLoading := searchLoading s; showFilters := showFilters s;
     currentPage := currentPage s; totalPages := totalPages s;
     totalCount := totalCount s; hasNext := hasNext s;
     hasPrevious := hasPrevious s; skillFilter := skillFilter s;
     locationFilter := locationFilter s |}.

Definition setSearchQuery (v : string) (s : State) : State :=
  {| users := users s; loading := loading s; searchQuery := v;
     searchLoading := searchLoading s; showFilters := showFilters s;
     currentPage := currentPage s; totalPages := totalPages s;
     totalCount := totalCount s; hasNext := hasNext s;
     hasPrevious := hasPrevious s; skillFilter := skillFilter s;
     locationFilter := locationFilter s |}.

Definition setSearchLoading (v : bool) (s : State) : State :=
  {| users := users s; loading := loading s; searchQuery := searchQuery s;
     searchLoading := v; showFilters := showFilters s;
     currentPage := currentPage s; totalPages := totalPages s;
     totalCount := totalCount s; hasNext := hasNext s;
     hasPrevious := hasPrevious s; skillFilter := skillFilter s;
     locationFilter := locationFilter s |}.

Definition setShowFilters (v : bool) (s : State) : State :=
  {| users := users s; loading := loading s; searchQuery := searchQuery s;
     searchLoading := searchLoading s; showFilters := v;
     currentPage := currentPage s; totalPages := totalPages s;
     totalCount := totalCount s; hasNext := hasNext s;
     hasPrevious := hasPrevious s; skillFilter := skillFilter s;
     locationFilter := locationFilter s |}.

Definition setCurrentPage (v : Z) (s : State) : State :=
  {| users := users s; loading := loading s; searchQuery := searchQuery s;
     searchLoading := searchLoading s; showFilters := showFilters s;
     currentPage := v; totalPages := totalPages s;
     totalCount := totalCount s; hasNext := hasNext s;
     hasPrevious := hasPrevious s; skillFilter := skillFilter s;
     locationFilter := locationFilter s |}.

Definition setTotalPages (v : Z) (s : State) : State :=
  {| users := users s; loading := loading s; searchQuery := searchQuery s;
     searchLoading := searchLoading s; showFilters := showFilters s;
     currentPage := currentPage s; totalPages := v;
     totalCount := totalCount s; hasNext := hasNext s;
     hasPrevious := hasPrevious s; skillFilter := skillFilter s;
     locationFilter := locationFilter s |}.

Definition setTotalCount (v : Z) (s : State) : State :=
  {| users := users s; loading := loading s; searchQuery := searchQuery s;
     searchLoading := searchLoading s; showFilters := showFilters s;
     currentPage := currentPage s; totalPages := totalPages s;
     totalCount := v; hasNext := hasNext s;
     hasPrevious := hasPrevious s; skillFilter := skillFilter s;
     locationFilter := locationFilter s |}.

Definition setHasNext (v : bool) (s : State) : State :=
  {| users := users s; loading := loading s; searchQuery := searchQuery s;
     searchLoading := searchLoading s; showFilters := showFilters s;
     currentPage := currentPage s; totalPages := totalPages s;
     totalCount := totalCount s; hasNext := v;
     hasPrevious := hasPrevious s; skillFilter := skillFilter s;
     locationFilter := locationFilter s |}.

Definition setHasPrevious (v : bool) (s : State) : State :=
  {| users := users s; loading := loading s; searchQuery := searchQuery s;
     searchLoading := searchLoading s; showFilters := showFilters s;
     currentPage := currentPage s; totalPages := totalPages s;
     totalCount := totalCount s; hasNext := hasNext s;
     hasPrevious := v; skillFilter := skillFilter s;
     locationFilter := locationFilter s |}.

Definition setSkillFilter (v : string) (s : State) : State :=
  {| users := users s; loading := loading s; searchQuery := searchQuery s;
     searchLoading := searchLoading s; showFilters := showFilters s;
     currentPage := currentPage s; totalPages := totalPages s;
     totalCount := totalCount s; hasNext := hasNext s;
     hasPrevious := hasPrevious s; skillFilter := v;
     locationFilter := locationFilter s |}.

Definition setLocationFilter (v : string) (s : State) : State :=
  {| users := users s; loading := loading s; searchQuery := searchQuery s;
     searchLoading := searchLoading s; showFilters := showFilters s;
     currentPage := currentPage s; totalPages := totalPages s;
     totalCount := totalCount s; hasNext := hasNext s;
     hasPrevious := hasPrevious s; skillFilter := skillFilter s;
     locationFilter := v |}.

(** The [useState] initial values. *)
Definition initialState : State :=
  {| users := []; loading := false; searchQuery := ""; searchLoading := false;
     showFilters := false; currentPage := 1; totalPages := 1; totalCount := 0;
     hasNext := false; hasPrevious := false; skillFilter := "";
     locationFilter := "" |}.

(** ** What the component renders from its state (the JSX conditions) *)

(** [{searchQuery ? 'Search Results' : 'Browse Users'}] *)
Definition resultsHeader (s : State) : string :=
  if JS.truthy (searchQuery s) then "Search Results" else "Browse Users".

(** The mode the results header announces. *)
Definition headerMode (s : State) : Mode :=
  if JS.truthy (searchQuery s) then Search else Browse.

(** [{!loading && ( ...users grid... )}] *)
Definition usersShown (s : State) : bool := negb (loading s).

(** [{!searchQuery && totalPages > 1 && <Pagination .../>}], inside the
    [!loading] block. *)
Definition paginationShown (s : State) : bool :=
  negb (loading s) && (negb (JS.truthy (searchQuery s)) && (1 <? totalPages s)).

(** [{(skillFilter || locationFilter) && <Button>Clear Filters</Button>}] *)
Definition clearFiltersShown (s : State) : bool :=
  JS.truthy (skillFilter s) || JS.truthy (locationFilter s).

(** The result list with every pagination field, as one value. *)
Record ResultPage : Type := {
  rp_users : list UserPreview;
  rp_totalCount : Z;
  rp_page : Z;
  rp_totalPages : Z;
  rp_hasNext : bool;
  rp_hasPrevious : bool
}.

Definition resultPage (s : State) : ResultPage :=
  {| rp_users := users s; rp_totalCount := totalCount s;
     rp_page := currentPage s; rp_totalPages := totalPages s;
     rp_hasNext := hasNext s; rp_hasPrevious := hasPrevious s |}.

(** ** The runtime around the component

    [view] is the hook state of the latest render. [timer] is the pending
    [setTimeout] of the debounce effect together with the render whose
    closure it runs. [pending] are the requests awaiting an answer, keyed
    by the order of issue; [fetches] logs every request with the time of
    its dispatch; [toasts] logs the [toast.error] messages.
    [provenance] is bookkeeping of the proofs only: which kind of response
    was applied last. No transition reads it. *)

Record Timeout : Type := {
  deadline : nat;
  closure : State
}.

Record Runtime : Type := {
  view : State;
  clock : nat;
  timer : option Timeout;
  nextId : nat;
  pending : list (nat * Request);
  fetches : list (nat * Request);
  toasts : list string;
  provenance : option Mode
}.

Definition setState (f : State -> State) (w : Runtime) : Runtime :=
  {| view := f (view w); clock := clock w; timer := timer w;
     nextId := nextId w; pending := pending w; fetches := fetches w;
     toasts := toasts w; provenance := provenance w |}.

Definition setClock (t : nat) (w : Runtime) : Runtime :=
  {| view := view w; clock := t; timer := timer w;
     nextId := nextId w; pending := pending w; fetches := fetches w;
     toasts := toasts w; provenance := provenance w |}.

Definition setTimer (t : option Timeout) (w : Runtime) : Runtime :=
  {| view := view w; clock := clock w; timer := t;
     nextId := nextId w; pending := pending w; fetches := fetches w;
     toasts := toasts w; provenance := provenance w |}.

Definition setProvenance (m : Mode) (w : Runtime) : Runtime :=
  {| view := view w; clock := clock w; timer := timer w;
     nextId := nextId w; pending := pending w; fetches := fetches w;
     toasts := toasts w; provenance := Some m |}.

(** [toast.error(msg)] *)
Definition toast_error (msg : string) (w : Runtime) : Runtime :=
  {| view := view w; clock := clock w; timer := timer w;
     nextId := nextId w; pending := pending w; fetches := fetches w;
     toasts := toasts w ++ [msg]; provenance := provenance w |}.

(** Calling the client: the request goes out now and its answer is
    awaited. *)
Definition issue (req : Request) (w : Runtime) : Runtime :=
  {| view := view w; clock := clock w; timer := timer w;
     nextId := S (nextId w);
     pending := pending w ++ [(nextId w, req)];
     fetches := fetches w ++ [(clock w, req)];
     toasts := toasts w; provenance := provenance w |}.

Fixpoint lookup (id : nat) (l : list (nat * Request)) : option Request :=
  match l with
  | [] => None
  | (k, req) :: rest => if Nat.eqb k id then Some req else lookup id rest
  end.

Definition settle (id : nat) (w : Runtime) : Runtime :=
  {| view := view w; clock := clock w; timer := timer w;
     nextId := nextId w;
     pending := filter (fun e => negb (Nat.eqb (fst e) id)) (pending w);
     fetches := fetches w; toasts := toasts w; provenance := provenance w |}.

(** ** The controller functions of [BrowseUsers]

    Every function takes the render [r] whose closure it is: the default
    arguments of [browseUsers] read [skillFilter] and [locationFilter]
    from that render, not from the live state. *)

(** [if (v) params.key = v]: the key is set only for a truthy value. *)
Definition optionalParam (v : string) : option string :=
  if JS.truthy v then Some v else None.

(** [browseUsers(page = 1, skill = skillFilter, location = locationFilter)]
    up to its [await]. *)
Definition browseUsers (r : State) (page : option Z)
    (skill location : option string) (w : Runtime) : Runtime :=
  let page := JS.orDefault 1 page in
  let skill := JS.orDefault (skillFilter r) skill in
  let location := JS.orDefault (locationFilter r) location in
  let w := setState (setLoading true) w in
  let params :=
    {| BrowseUsersParams.page := page;
       BrowseUsersParams.page_size := 12;
       BrowseUsersParams.skill_filter := optionalParam skill;
       BrowseUsersParams.location_filter := optionalParam location |} in
  issue (browse_users params) w.

(** [browseUsers] from its [await] on: [outcome] is the decoded body, or
    [None] when the call or the decoding threw. *)
Definition browseUsers_resume (outcome : option BrowseUsersResponse.t)
    (w : Runtime) : Runtime :=
  let w :=
    match outcome with
    | Some data =>
        let w := setState (setUsers (BrowseUsersResponse.users data)) w in
        let w := setState (setCurrentPage (BrowseUsersResponse.page data)) w in
        let w := setState (setTotalPages (BrowseUsersResponse.total_pages data)) w in
        let w := setState (setTotalCount (BrowseUsersResponse.total_count data)) w in
        let w := setState (setHasNext (BrowseUsersResponse.has_next data)) w in
        let w := setState (setHasPrevious (BrowseUsersResponse.has_previous data)) w in
        setProvenance Browse w
    | None => toast_error "Failed to load users" w
    end in
  setState (setLoading false) w.

(** [searchUsers(query)] up to its [await]; with a blank query it is
    [await browseUsers(1); return]. *)
Definition searchUsers (r : State) (query : string) (w : Runtime) : Runtime :=
  if negb (JS.truthy (JS.trim query)) then
    browseUsers r (Some 1) None None w
  else
    let w := setState (setSearchLoading true) w in
    issue (search_users {| SearchUsersParams.q := query;
                           SearchUsersParams.limit := 20 |}) w.

(** [searchUsers] from its [await] on. *)
Definition searchUsers_resume (outcome : option SearchUsersResponse.t)
    (w : Runtime) : Runtime :=
  let w :=
    match outcome with
    | Some data =>
        let w := setState (setUsers (SearchUsersResponse.users data)) w in
        let w := setState (setCurrentPage 1) w in
        let w := setState (setTotalPages 1) w in
        let w := setState (setTotalCount (SearchUsersResponse.total_count data)) w in
        let w := setState (setHasNext false) w in
        let w := setState (setHasPrevious false) w in
        setProvenance Search w
    | None => toast_error "Failed to search users" w
    end in
  setState (setSearchLoading false) w.

(** The input's [onChange]: [setSearchQuery(e.target.value)]. Setting the
    value it already has re-renders nothing; otherwise the debounce effect
    (dependency [searchQuery]) clears its timeout and arms a new one,
    300 ms ahead, whose callback is [searchUsers(searchQuery)] of the new
    render. *)
Definition changeQuery (text : string) (w : Runtime) : Runtime :=
  if String.eqb text (searchQuery (view w)) then w
  else
    let w := setState (setSearchQuery text) w in
    setTimer (Some {| deadline := (clock w + 300)%nat; closure := view w |}) w.

(** [handlePageChange(page)] *)
Definition handlePageChange (page : Z) (w : Runtime) : Runtime :=
  let r := view w in
  if negb (JS.truthy (searchQuery r)) then browseUsers r (Some page) None None w
  else w.

(** [handleFilterChange({skill, location})] *)
Definition handleFilterChange (skill location : option string)
    (w : Runtime) : Runtime :=
  let r := view w in
  let w := setState (setSkillFilter (JS.orEmpty skill)) w in
  let w := setState (setLocationFilter (JS.orEmpty location)) w in
  let w := setState (setCurrentPage 1) w in
  browseUsers r (Some 1) skill location w.

(** [handlePopularSkillClick(skillName)] *)
Definition handlePopularSkillClick (skillName : string) (w : Runtime) : Runtime :=
  let r := view w in
  let w := setState (setSkillFilter skillName) w in
  let w := setState (setCurrentPage 1) w in
  let w := browseUsers r (Some 1) (Some skillName) (Some (locationFilter r)) w in
  setState (setShowFilters false) w.

(** The [onClick] of the Clear Filters button in the results header. *)
Definition clearFiltersClick (w : Runtime) : Runtime :=
  let r := view w in
  let w := setState (setSkillFilter "") w in
  let w := setState (setLocationFilter "") w in
  let w := setState (setCurrentPage 1) w in
  browseUsers r (Some 1) None None w.

(** [handleClearFilters] of [SearchFilters], whose [onFilterChange] is
    [handleFilterChange]; the local copies of the two inputs it also
    resets are not part of the controller. *)
Definition SearchFilters_handleClearFilters (w : Runtime) : Runtime :=
  handleFilterChange (Some "") (Some "") w.

(** [dt] milliseconds pass. A timeout that comes due runs its callback at
    its deadline. *)
Definition elapse (dt : nat) (w : Runtime) : Runtime :=
  let later := (clock w + dt)%nat in
  match timer w with
  | Some t =>
      if (deadline t <=? later)%nat then
        let w := setClock (Nat.max (clock w) (deadline t)) w in
        let w := setTimer None w in
        let w := searchUsers (closure t) (searchQuery (closure t)) w in
        setClock later w
      else setClock later w
  | None => setClock later w
  end.

(** A browse request settles. *)
Definition browseDone (id : nat) (outcome : option BrowseUsersResponse.t)
    (w : Runtime) : Runtime :=
  match lookup id (pending w) with
  | Some (browse_users _) => browseUsers_resume outcome (settle id w)
  | _ => w
  end.

(** A search request settles. *)
Definition searchDone (id : nat) (outcome : option SearchUsersResponse.t)
    (w : Runtime) : Runtime :=
  match lookup id (pending w) with
  | Some (search_users _) => searchUsers_resume outcome (settle id w)
  | _ => w
  end.

(** Before the first render. *)
Definition boot : Runtime :=
  {| view := initialState; clock := 0%nat; timer := None; nextId := 0%nat;
     pending := []; fetches := []; toasts := []; provenance := None |}.

(** The effects of the first render, in source order: the debounce effect
    arms its timeout, then the initial load calls [browseUsers()] since
    [searchQuery] is empty. (Loading the popular skills only feeds the
    chips.) *)
Definition mount (w : Runtime) : Runtime :=
  let r := view w in
  let w := setTimer (Some {| deadline := (clock w + 300)%nat; closure := r |}) w in
  if negb (JS.truthy (searchQuery r)) then browseUsers r None None None w
  else w.

(** ** Events

    Everything that happens to a mounted component: a user intent, the
    passing of time, or the settling of a request. Each event runs to
    completion, and the component is rendered anew before the next one. *)

Inductive Event : Type :=
| ChangeQuery (text : string)
| PageChange (page : Z)
| FilterChange (skill location : option string)
| PopularSkillClick (skillName : string)
| ClearFiltersClick
| SidebarClear
| Elapse (dt : nat)
| BrowseDone (id : nat) (outcome : option BrowseUsersResponse.t)
| SearchDone (id : nat) (outcome : option SearchUsersResponse.t).

Definition step (e : Event) (w : Runtime) : Runtime :=
  match e with
  | ChangeQuery text => changeQuery text w
  | PageChange page => handlePageChange page w
  | FilterChange skill location => handleFilterChange skill location w
  | PopularSkillClick skillName => handlePopularSkillClick skillName w
  | ClearFiltersClick => clearFiltersClick w
  | SidebarClear => SearchFilters_handleClearFilters w
  | Elapse dt => elapse dt w
  | BrowseDone id outcome => browseDone id outcome w
  | SearchDone id outcome => searchDone id outcome w
  end.

Definition run (events : list Event) (w : Runtime) : Runtime :=
  fold_left (fun w e => step e w) events w.

Inductive reachable : Runtime -> Prop :=
| reachable_mount : reachable (mount boot)
| reachable_step (e : Event) (w : Runtime) :
    reachable w -> reachable (step e w).

(** The last request that went out, if any. *)
Definition lastFetch (w : Runtime) : option (nat * Request) :=
  last (map Some (fetches w)) None.

(** ** Vocabulary of the statements *)

(** The result page a browse response stands for. *)
Definition browsePage (data : BrowseUsersResponse.t) : ResultPage :=
  {| rp_users := BrowseUsersResponse.users data;
     rp_totalCount := BrowseUsersResponse.total_count data;
     rp_page := BrowseUsersResponse.page data;
     rp_totalPages := BrowseUsersResponse.total_pages data;
     rp_hasNext := BrowseUsersResponse.has_next data;
     rp_hasPrevious := BrowseUsersResponse.has_previous data |}.

(** The result page a search response stands for: one page, no
    neighbours. *)
Definition searchPage (data : SearchUsersResponse.t) : ResultPage :=
  {| rp_users := SearchUsersResponse.users data;
     rp_totalCount := SearchUsersResponse.total_count data;
     rp_page := 1;
     rp_totalPages := 1;
     rp_hasNext := false;
     rp_hasPrevious := false |}.

(** The browse request for a page under two filter strings. *)
Definition browseRequest (page : Z) (skill location : string) : Request :=
  browse_users {| BrowseUsersParams.page := page;
                  BrowseUsersParams.page_size := 12;
                  BrowseUsersParams.skill_filter := optionalParam skill;
                  BrowseUsersParams.location_filter := optionalParam location |}.

Definition searchRequest (query : string) : Request :=
  search_users {| SearchUsersParams.q := query; SearchUsersParams.limit := 20 |}.

(** What a request on the wire may look like. *)
Definition wellFormed (req : Request) : Prop :=
  match req with
  | browse_users p =>
      BrowseUsersParams.page_size p = 12 /\
      BrowseUsersParams.skill_filter p <> Some "" /\
      BrowseUsersParams.location_filter p <> Some ""
  | search_users p =>
      SearchUsersParams.limit p = 20 /\
      JS.trim (SearchUsersParams.q p) <> ""
  end.

(** Events that are no user intent: time passing, requests settling. *)
Definition isPassive (e : Event) : bool :=
  match e with
  | Elapse _ | BrowseDone _ _ | SearchDone _ _ => true
  | _ => false
  end.

(** Events of a search excursion: besides the passive ones, edits of the
    query that leave it non-empty. *)
Definition staysInSearch (e : Event) : bool :=
  match e with
  | ChangeQuery text => JS.truthy text
  | _ => isPassive e
  end.

Definition isSettling (e : Event) : bool :=
  match e with
  | BrowseDone _ _ | SearchDone _ _ => true
  | _ => false
  end.

(** Typing: each keystroke comes [gap] milliseconds after the previous
    change and puts [text] in the search box. *)
Fixpoint typing (keys : list (nat * string)) : list Event :=
  match keys with
  | [] => []
  | (gap, text) :: rest => Elapse gap :: ChangeQuery text :: typing rest
  end.

(** Each text differs from the one before it, starting from [prev]. *)
Fixpoint changes (prev : string) (texts : list string) : Prop :=
  match texts with
  | [] => True
  | text :: rest => text <> prev /\ changes text rest
  end.

(** The request the debounce callback sends for a query, under the
    filters of the render it closed over. *)
Definition debounced (query : string) (r : State) : Request :=
  if JS.truthy (JS.trim query) then searchRequest query
  else browseRequest 1 (skillFilter r) (locationFilter r).

(** While the list on screen is the answer to a search, the pagination
    fields are the ones a search answer fixes. *)
Definition searchPageFixed (w : Runtime) : Prop :=
  provenance w = Some Search ->
  currentPage (view w) = 1 /\ totalPages (view w) = 1 /\
  hasNext (view w) = false /\ hasPrevious (view w) = false.

(** The user's intent: the query and the two filters. *)
Definition sameIntent (w w' : Runtime) : Prop :=
  searchQuery (view w') = searchQuery (view w) /\
  skillFilter (view w') = skillFilter (view w) /\
  locationFilter (view w') = locationFilter (view w).

(** A change of the query arms the timer anew, 300 ms ahead, over the
    render that shows the new query. *)
Definition armed (w : Runtime) : Prop :=
  timer w = Some {| deadline := (clock w + 300)%nat; closure := view w |}.

(** ** Sample data for the concrete runs *)

Definition ann : UserPreview := {| user_id := "u1"; user_name := "Ann" |}.
Definition bob : UserPreview := {| user_id := "u2"; user_name := "Bob" |}.
Definition cyd : UserPreview := {| user_id := "u3"; user_name := "Cyd" |}.

(** Pages 1 and 2 of an unfiltered listing of three pages. *)
Definition firstPage : BrowseUsersResponse.t :=
  {| BrowseUsersResponse.users := [ann];
     BrowseUsersResponse.total_count := 30;
     BrowseUsersResponse.page := 1;
     BrowseUsersResponse.page_size := 12;
     BrowseUsersResponse.total_pages := 3;
     BrowseUsersResponse.has_next := true;
     BrowseUsersResponse.has_previous := false |}.

Definition secondPage : BrowseUsersResponse.t :=
  {| BrowseUsersResponse.users := [bob];
     BrowseUsersResponse.total_count := 30;
     BrowseUsersResponse.page := 2;
     BrowseUsersResponse.page_size := 12;
     BrowseUsersResponse.total_pages := 3;
     BrowseUsersResponse.has_next := true;
     BrowseUsersResponse.has_previous := true |}.

(** Page 1 of the listing filtered by the skill Design, two pages long. *)
Definition designPage : BrowseUsersResponse.t :=
  {| BrowseUsersResponse.users := [cyd];
     BrowseUsersResponse.total_count := 14;
     BrowseUsersResponse.page := 1;
     BrowseUsersResponse.page_size := 12;
     BrowseUsersResponse.total_pages := 2;
     BrowseUsersResponse.has_next := true;
     BrowseUsersResponse.has_previous := false |}.

Definition found : SearchUsersResponse.t :=
  {| SearchUsersResponse.users := [bob; cyd];
     SearchUsersResponse.total_count := 2 |}.

(** The page after mounting and receiving the first listing. *)
Definition landed : Runtime := run [BrowseDone 0 (Some firstPage)] (mount boot).

(** Page 2 of the listing filtered by Design is on screen. *)
Definition onDesignPageTwo : Runtime :=
  run [FilterChange (Some "Design") (Some ""); BrowseDone 1 (Some designPage);
       PageChange 2;
       BrowseDone 2 (Some {| BrowseUsersResponse.users := [bob];
                             BrowseUsersResponse.total_count := 14;
                             BrowseUsersResponse.page := 2;
                             BrowseUsersResponse.page_size := 12;
                             BrowseUsersResponse.total_pages := 2;
                             BrowseUsersResponse.has_next := false;
                             BrowseUsersResponse.has_previous := true |})]
      landed.

(** ** The [Pagination] component: its controls

    Besides the numbered buttons the component renders a Previous and a
    Next button, and nothing at all for a single page. *)

Module Pagination.

Record Props : Type := {
  currentPage : Z;
  totalPages : Z;
  hasNext : bool;
  hasPrevious : bool
}.

(** The numbered buttons among the items, left to right. *)
Fixpoint numbers (items : list PageItem) : list Z :=
  match items with
  | [] => []
  | Page n :: rest => n :: numbers rest
  | ellipsis :: rest => numbers rest
  end.

(** The pages a click can hand to [onPageChange]. The component returns
    [null] when [totalPages <= 1]; Previous passes [currentPage - 1] and
    is disabled without [hasPrevious]; each numbered button passes its
    number; Next passes [currentPage + 1] and is disabled without
    [hasNext]. *)
Definition clickTargets (p : Props) : list Z :=
  if totalPages p <=? 1 then []
  else
    (if hasPrevious p then [currentPage p - 1] else [])
    ++ numbers (generatePageNumbers (currentPage p) (totalPages p))
    ++ (if hasNext p then [currentPage p + 1] else []).

(** The items read left to right after the page [prev]: a number follows
    its predecessor directly, an ellipsis stands between two numbers that
    are not neighbours, and never at the end or next to another one. *)
Fixpoint gapsMarked (prev : Z) (items : list PageItem) : bool :=
  match items with
  | [] => true
  | Page n :: rest => (n =? prev + 1) && gapsMarked n rest
  | ellipsis :: rest =>
      match rest with
      | Page n :: rest' => (prev + 1 <? n) && gapsMarked n rest'
      | _ => false
      end
  end.

(** The whole row: it is empty or begins with the button of page 1,
    never with an ellipsis, and goes on as [gapsMarked] says. *)
Definition rowMarked (items : list PageItem) : bool :=
  match items with
  | [] => true
  | Page n :: rest => (n =? 1) && gapsMarked n rest
  | ellipsis :: _ => false
  end.

End Pagination.

(** The props [BrowseUsers] passes to its pagination bar. *)
Definition paginationProps (s : State) : Pagination.Props :=
  {| Pagination.currentPage := currentPage s;
     Pagination.totalPages := totalPages s;
     Pagination.hasNext := hasNext s;
     Pagination.hasPrevious := hasPrevious s |}.

(** A click in the pagination bar of the page: possible only on a bar
    that is rendered and on a control that is enabled; it calls
    [handlePageChange]. *)
Definition paginationClick (target : Z) (w : Runtime) : Runtime :=
  if paginationShown (view w)
     && existsb (Z.eqb target) (Pagination.clickTargets (paginationProps (view w)))
  then handlePageChange target w
  else w.

(** ** Requests in flight *)

Definition isBrowse (req : Request) : bool :=
  match req with
  | browse_users _ => true
  | search_users _ => false
  end.

Definition isSearch (req : Request) : bool :=
  match req with
  | browse_users _ => false
  | search_users _ => true
  end.

(** Some browse (search) request awaits its answer. *)
Definition browsePending (w : Runtime) : bool :=
  existsb (fun e => isBrowse (snd e)) (pending w).

Definition searchPending (w : Runtime) : bool :=
  existsb (fun e => isSearch (snd e)) (pending w).

(** Requests are numbered in the order of issue: the pending ones carry
    distinct numbers, all below the next one. *)
Definition idsFresh (w : Runtime) : Prop :=
  NoDup (map fst (pending w)) /\
  Forall (fun e => (fst e < nextId w)%nat) (pending w).

(** A loading flag is up only while a request of its kind is pending. *)
Definition flagsBacked (w : Runtime) : Prop :=
  (loading (view w) = true -> browsePending w = true) /\
  (searchLoading (view w) = true -> searchPending w = true).

(** The two invariants together, as they are kept by every step. *)
Definition inFlightInvariant (w : Runtime) : Prop := idsFresh w /\ flagsBacked w.

(** ** The [SearchFilters] sidebar inside the page

    The sidebar keeps its own copy of the two inputs, initialised from
    its props when it mounts and never synchronised with them later; its
    [onFilterChange] is the page's [handleFilterChange]. *)

Module SearchFilters.

Record t : Type := {
  host : Runtime;
  localSkillFilter : string;
  localLocationFilter : string
}.

(** [useState(skillFilter)], [useState(locationFilter)] *)
Definition mountIn (w : Runtime) : t :=
  {| host := w;
     localSkillFilter := skillFilter (view w);
     localLocationFilter := locationFilter (view w) |}.

(** Typing in the two inputs. *)
Definition setLocalSkillFilter (v : string) (p : t) : t :=
  {| host := host p; localSkillFilter := v;
     localLocationFilter := localLocationFilter p |}.

Definition setLocalLocationFilter (v : string) (p : t) : t :=
  {| host := host p; localSkillFilter := localSkillFilter p;
     localLocationFilter := v |}.

Definition handleApplyFilters (p : t) : t :=
  {| host := handleFilterChange (Some (localSkillFilter p))
                                (Some (localLocationFilter p)) (host p);
     localSkillFilter := localSkillFilter p;
     localLocationFilter := localLocationFilter p |}.

Definition handleClearFilters (p : t) : t :=
  {| host := handleFilterChange (Some "") (Some "") (host p);
     localSkillFilter := "";
     localLocationFilter := "" |}.

Definition handlePopularSkillClick (skillName : string) (p : t) : t :=
  {| host := handleFilterChange (Some skillName)
                                (Some (localLocationFilter p)) (host p);
     localSkillFilter := skillName;
     localLocationFilter := localLocationFilter p |}.

(** The [onClick] of the active skill badge. *)
Definition removeSkillBadge (p : t) : t :=
  {| host := handleFilterChange (Some "")
                                (Some (locationFilter (view (host p)))) (host p);
     localSkillFilter := "";
     localLocationFilter := localLocationFilter p |}.

(** The [onClick] of the active location badge. *)
Definition removeLocationBadge (p : t) : t :=
  {| host := handleFilterChange (Some (skillFilter (view (host p))))
                                (Some "") (host p);
     localSkillFilter := localSkillFilter p;
     localLocationFilter := "" |}.

(** [disabled] of the Apply button. *)
Definition applyDisabled (p : t) : bool :=
  String.eqb (localSkillFilter p) (skillFilter (view (host p)))
  && String.eqb (localLocationFilter p) (locationFilter (view (host p))).

(** Anything that happens to the page outside the sidebar. *)
Definition hostStep (e : Event) (p : t) : t :=
  {| host := step e (host p);
     localSkillFilter := localSkillFilter p;
     localLocationFilter := localLocationFilter p |}.

(** The inputs show the filters in force. *)
Definition inSync (p : t) : Prop :=
  localSkillFilter p = skillFilter (view (host p)) /\
  localLocationFilter p = locationFilter (view (host p)).

End SearchFilters.

(** ** [AvailabilitySelector] *)

Module AvailabilitySelector.

(** [Array.prototype.includes] on strings *)
Definition includes (l : list string) (x : string) : bool :=
  existsb (String.eqb x) l.

(** [handleToggle(optionId)]: the selection handed to
    [onAvailabilityChange]. *)
Definition handleToggle (selectedAvailability : list string)
    (optionId : string) : list string :=
  if includes selectedAvailability optionId then
    filter (fun id => negb (String.eqb id optionId)) selectedAvailability
  else selectedAvailability ++ [optionId].

(** The ids of [defaultAvailabilityOptions], the only ones a card can
    toggle. *)
Definition optionIds : list string :=
  ["weekday_mornings"; "weekday_afternoons"; "weekday_evenings";
   "weekend_mornings"; "weekend_afternoons"; "weekend_evenings"; "flexible"].

(** A card is clicked: nothing happens for an id without a card. *)
Definition clickCard (optionId : string) (selected : list string) : list string :=
  if includes optionIds optionId then handleToggle selected optionId else selected.

(** The selections reachable by clicking cards, from a given start. *)
Definition clicks (ids : list string) (start : list string) : list string :=
  fold_left (fun sel id => clickCard id sel) ids start.

End AvailabilitySelector.

(** ** Skills and the profile calls

    A skill as the selector and the profile pages pass it around; an
    absent key is [None]. *)

Record SkillWithLevel : Type := {
  skill_id : string;
  skill_name : string;
  category : option string;
  description : option string;
  proficiency_level : option string;
  urgency_level : option string
}.

(** [s || null] for a string. *)
Definition orNull (s : string) : option string :=
  if JS.truthy s then Some s else None.

(** [a || null] for an optional string. *)
Definition optOrNull (a : option string) : option string :=
  match a with
  | Some s => orNull s
  | None => None
  end.

(** [a || dflt] for an optional string. *)
Definition optOrElse (dflt : string) (a : option string) : string :=
  match a with
  | Some s => if JS.truthy s then s else dflt
  | None => dflt
  end.

Record ProfileParams : Type := {
  pp_name : string;
  pp_location : option string;
  pp_profile_photo_url : option string;
  pp_availability : list string;
  pp_is_public : bool
}.

Record SkillParams : Type := {
  sp_skill_name : string;
  sp_category : option string;
  sp_description : option string;
  sp_level : string
}.

(** The calls the profile pages make on the [brain] client; [sp_level] is
    [proficiency_level] for an offered and [urgency_level] for a wanted
    skill. *)
Inductive ProfileCall : Type :=
| create_profile (params : ProfileParams)
| update_profile (params : ProfileParams)
| add_offered_skill (params : SkillParams)
| add_wanted_skill (params : SkillParams)
| remove_offered_skill (skill_id : string)
| remove_wanted_skill (skill_id : string).

(** How a call ends: with a response, [ok] or not, or with an
    exception. *)
Inductive Reply : Type :=
| replied (ok : bool)
| threw.

(** The form both profile pages keep. *)
Record FormData : Type := {
  name : string;
  location : string;
  profilePhotoUrl : string;
  availability : list string;
  isPublic : bool
}.

(** The three fields [handleInputChange] is called with. *)
Inductive Field : Type :=
| field_name
| field_location
| field_profilePhotoUrl.

(** [setFormData(prev => ({ ...prev, [field]: value }))] *)
Definition handleInputChange (field : Field) (value : string) (f : FormData) : FormData :=
  match field with
  | field_name =>
      {| name := value; location := location f;
         profilePhotoUrl := profilePhotoUrl f; availability := availability f;
         isPublic := isPublic f |}
  | field_location =>
      {| name := name f; location := value;
         profilePhotoUrl := profilePhotoUrl f; availability := availability f;
         isPublic := isPublic f |}
  | field_profilePhotoUrl =>
      {| name := name f; location := location f;
         profilePhotoUrl := value; availability := availability f;
         isPublic := isPublic f |}
  end.

(** [onAvailabilityChange] and [onToggle] of the two profile pages. *)
Definition setAvailability (v : list string) (f : FormData) : FormData :=
  {| name := name f; location := location f;
     profilePhotoUrl := profilePhotoUrl f; availability := v;
     isPublic := isPublic f |}.

Definition setIsPublic (v : bool) (f : FormData) : FormData :=
  {| name := name f; location := location f;
     profilePhotoUrl := profilePhotoUrl f; availability := availability f;
     isPublic := v |}.

(** The body both pages send for the form. *)
Definition profileParams (f : FormData) : ProfileParams :=
  {| pp_name := name f;
     pp_location := orNull (location f);
     pp_profile_photo_url := orNull (profilePhotoUrl f);
     pp_availability := availability f;
     pp_is_public := isPublic f |}.

Definition offeredParams (skill : SkillWithLevel) : SkillParams :=
  {| sp_skill_name := skill_name skill;
     sp_category := category skill;
     sp_description := optOrNull (description skill);
     sp_level := optOrElse "Beginner" (proficiency_level skill) |}.

Definition wantedParams (skill : SkillWithLevel) : SkillParams :=
  {| sp_skill_name := skill_name skill;
     sp_category := category skill;
     sp_description := optOrNull (description skill);
     sp_level := optOrElse "Medium" (urgency_level skill) |}.

(** [prev.filter(s => s.id !== skillId)] *)
Definition withoutSkill (skillId : string) (l : list SkillWithLevel) : list SkillWithLevel :=
  filter (fun s => negb (String.eqb (skill_id s) skillId)) l.

(** ** [SkillSelector]

    The state the two handlers read and write. (The component's debounced
    lookup of suggestions keeps its own state and is not part of this
    model.) *)

Module SkillSelector.

(** The [type] prop. *)
Inductive Kind : Type :=
| offered
| wanted.

Record State : Type := {
  searchQuery : string;
  showResults : bool;
  selectedLevel : string;
  newSkillName : string;
  newSkillCategory : string;
  showAddForm : bool
}.

(** What a handler does to the outside. *)
Inductive Effect : Type :=
| alert (message : string)
| onSkillAdd (skill : SkillWithLevel).

(** [{ ...skill, [levelKey]: selectedLevel }] *)
Definition withLevel (type : Kind) (level : string) (skill : SkillWithLevel)
    : SkillWithLevel :=
  match type with
  | offered =>
      {| skill_id := skill_id skill; skill_name := skill_name skill;
         category := category skill; description := description skill;
         proficiency_level := Some level; urgency_level := urgency_level skill |}
  | wanted =>
      {| skill_id := skill_id skill; skill_name := skill_name skill;
         category := category skill; description := description skill;
         proficiency_level := proficiency_level skill; urgency_level := Some level |}
  end.

(** The level a skill carries under the key of the selector's kind. *)
Definition levelOf (type : Kind) (skill : SkillWithLevel) : option string :=
  match type with
  | offered => proficiency_level skill
  | wanted => urgency_level skill
  end.

Definition handleSkillSelect (type : Kind) (skill : SkillWithLevel) (st : State)
    : State * Effect :=
  if negb (JS.truthy (selectedLevel st)) then
    (st, alert (String.append "Please select a "
                  (String.append (match type with
                                  | offered => "proficiency"
                                  | wanted => "urgency"
                                  end) " level first")))
  else
    ({| searchQuery := ""; showResults := false; selectedLevel := "";
        newSkillName := newSkillName st; newSkillCategory := newSkillCategory st;
        showAddForm := showAddForm st |},
     onSkillAdd (withLevel type (selectedLevel st) skill)).

(** [`temp-${Date.now()}`], for the clock reading [now]. *)
Definition tempId (now : N) : string :=
  String.append "temp-" (DecimalString.NilEmpty.string_of_uint (N.to_uint now)).

Definition handleAddNewSkill (type : Kind) (now : N) (st : State) : State * Effect :=
  if negb (JS.truthy (JS.trim (newSkillName st))) || negb (JS.truthy (selectedLevel st))
  then (st, alert "Please fill in skill name and select a level")
  else
    ({| searchQuery := searchQuery st; showResults := showResults st;
        selectedLevel := ""; newSkillName := ""; newSkillCategory := "";
        showAddForm := false |},
     onSkillAdd
       (withLevel type (selectedLevel st)
          {| skill_id := tempId now;
             skill_name := JS.trim (newSkillName st);
             category := Some (if JS.truthy (newSkillCategory st)
                               then newSkillCategory st else "Other");
             description := None;
             proficiency_level := None;
             urgency_level := None |})).

(** [selectedSkills.some(s => s.id === skillId)] *)
Definition isSkillSelected (selectedSkills : list SkillWithLevel) (skillId : string) : bool :=
  existsb (fun s => String.eqb (skill_id s) skillId) selectedSkills.

(** The [onClick] of a suggestion:
    [!isSkillSelected(skill.id) && handleSkillSelect(skill)]. *)
Definition clickSuggestion (type : Kind) (selectedSkills : list SkillWithLevel)
    (skill : SkillWithLevel) (st : State) : State * option Effect :=
  if negb (isSkillSelected selectedSkills (skill_id skill)) then
    let (st', eff) := handleSkillSelect type skill st in (st', Some eff)
  else (st, None).

End SkillSelector.

(** A toast of the profile pages. *)
Inductive Notice : Type :=
| toast_success (message : string)
| toast_failure (message : string).

(** ** [ProfileSetup]: the five-step wizard *)

Module ProfileSetup.

Record State : Type := {
  currentStep : Z;
  isSubmitting : bool;
  formData : FormData;
  offeredSkills : list SkillWithLevel;
  wantedSkills : list SkillWithLevel
}.

Definition totalSteps : Z := 5.

(** The [useState] initial values. *)
Definition initial : State :=
  {| currentStep := 1; isSubmitting := false;
     formData := {| name := ""; location := ""; profilePhotoUrl := "";
                    availability := []; isPublic := true |};
     offeredSkills := []; wantedSkills := [] |}.

Definition setCurrentStep (v : Z) (s : State) : State :=
  {| currentStep := v; isSubmitting := isSubmitting s; formData := formData s;
     offeredSkills := offeredSkills s; wantedSkills := wantedSkills s |}.

Definition setIsSubmitting (v : bool) (s : State) : State :=
  {| currentStep := currentStep s; isSubmitting := v; formData := formData s;
     offeredSkills := offeredSkills s; wantedSkills := wantedSkills s |}.

Definition setFormData (f : FormData -> FormData) (s : State) : State :=
  {| currentStep := currentStep s; isSubmitting := isSubmitting s;
     formData := f (formData s);
     offeredSkills := offeredSkills s; wantedSkills := wantedSkills s |}.

Definition setOfferedSkills (f : list SkillWithLevel -> list SkillWithLevel)
    (s : State) : State :=
  {| currentStep := currentStep s; isSubmitting := isSubmitting s;
     formData := formData s;
     offeredSkills := f (offeredSkills s); wantedSkills := wantedSkills s |}.

Definition setWantedSkills (f : list SkillWithLevel -> list SkillWithLevel)
    (s : State) : State :=
  {| currentStep := currentStep s; isSubmitting := isSubmitting s;
     formData := formData s;
     offeredSkills := offeredSkills s; wantedSkills := f (wantedSkills s) |}.

Definition handleNext (s : State) : State :=
  if currentStep s <? totalSteps then setCurrentStep (currentStep s + 1) s else s.

Definition handlePrevious (s : State) : State :=
  if 1 <? currentStep s then setCurrentStep (currentStep s - 1) s else s.

Definition canProceed (s : State) : bool :=
  if currentStep s =? 1 then true
  else if currentStep s =? 2 then
    (0 <? String.length (JS.trim (name (formData s))))%nat
  else if currentStep s =? 3 then true
  else if currentStep s =? 4 then true
  else if currentStep s =? 5 then true
  else false.

(** What the user can do on the step shown. The inputs exist on step 2,
    the two skill selectors on steps 3 and 4, the availability cards and
    the privacy switch on step 5; Previous is disabled on step 1; Next is
    rendered before the last step and disabled unless [canProceed()]. *)
Inductive Click : Type :=
| TypeInput (field : Field) (value : string)
| ClickNext
| ClickPrevious
| AddSkill (skill : SkillWithLevel)
| RemoveSkill (skillId : string)
| ClickCard (optionId : string)
| SwitchPublic (isPublic : bool).

Definition click (c : Click) (s : State) : State :=
  match c with
  | TypeInput field value =>
      if currentStep s =? 2 then setFormData (handleInputChange field value) s
      else s
  | ClickNext =>
      if (currentStep s <? totalSteps) && canProceed s then handleNext s else s
  | ClickPrevious =>
      if currentStep s =? 1 then s else handlePrevious s
  | AddSkill skill =>
      if currentStep s =? 3 then setOfferedSkills (fun prev => prev ++ [skill]) s
      else if currentStep s =? 4 then setWantedSkills (fun prev => prev ++ [skill]) s
      else s
  | RemoveSkill skillId =>
      if currentStep s =? 3 then setOfferedSkills (withoutSkill skillId) s
      else if currentStep s =? 4 then setWantedSkills (withoutSkill skillId) s
      else s
  | ClickCard optionId =>
      if currentStep s =? 5 then
        setFormData (setAvailability
                       (AvailabilitySelector.clickCard optionId
                          (availability (formData s)))) s
      else s
  | SwitchPublic isPublic =>
      if currentStep s =? 5 then setFormData (setIsPublic isPublic) s else s
  end.

Definition clicks (cs : list Click) (s : State) : State :=
  fold_left (fun s c => click c s) cs s.

(** The Complete Setup button: rendered on the last step, disabled while
    submitting or unless [canProceed()]. *)
Definition submitEnabled (s : State) : bool :=
  negb (currentStep s <? totalSteps) && (canProceed s && negb (isSubmitting s)).

(** The loop [for (const skill of skills) { try { await add(...) } catch
    { console.error(tag) } }]: the calls made, the errors logged, and the
    outcomes left for the calls after it. [throws] tells, call by call,
    whether the call throws; beyond its end no call throws. *)
Fixpoint addSkills (mk : SkillWithLevel -> ProfileCall) (tag : string)
    (skills : list SkillWithLevel) (throws : list bool)
    : list ProfileCall * list string * list bool :=
  match skills with
  | [] => ([], [], throws)
  | skill :: rest =>
      let threwNow := match throws with t :: _ => t | [] => false end in
      let '(calls, errors, later) := addSkills mk tag rest (tl throws) in
      (mk skill :: calls, (if threwNow then tag :: errors else errors), later)
  end.

Record Submitted : Type := {
  calls : list ProfileCall;
  consoleErrors : list string;
  toasts : list Notice;
  navigatedTo : option string
}.

(** [handleSubmit] from the click to its end, for the reply to
    [create_profile] and the outcomes of the skill calls. It reads the
    form and the skills of the render of the click. *)
Definition handleSubmit (s : State) (created : Reply) (throws : list bool) : Submitted :=
  let create := create_profile (profileParams (formData s)) in
  match created with
  | replied true =>
      let '(calls1, errors1, later) :=
        addSkills (fun skill => add_offered_skill (offeredParams skill))
                  "Error adding offered skill:" (offeredSkills s) throws in
      let '(calls2, errors2, _) :=
        addSkills (fun skill => add_wanted_skill (wantedParams skill))
                  "Error adding wanted skill:" (wantedSkills s) later in
      {| calls := create :: calls1 ++ calls2;
         consoleErrors := errors1 ++ errors2;
         toasts := [toast_success
                      "Profile created successfully! Welcome to SkillXchange! 🎉"];
         navigatedTo := Some "/App" |}
  | _ =>
      {| calls := [create];
         consoleErrors := ["Error creating profile:"];
         toasts := [toast_failure "Failed to create profile. Please try again."];
         navigatedTo := None |}
  end.

End ProfileSetup.

(** ** [ProfileEdit]

    The page once the profile is loaded ([isLoading] off; while it is on
    the page shows a spinner and no control). [awaiting] are the
    continuations waiting for a reply, [sent] logs the calls. *)

Module ProfileEdit.

Record State : Type := {
  isSaving : bool;
  formData : FormData;
  offeredSkills : list SkillWithLevel;
  wantedSkills : list SkillWithLevel
}.

(** A continuation waiting for its reply, with what it closed over. *)
Inductive Awaiting : Type :=
| saveProfile
| addSkill (type : SkillSelector.Kind) (skill : SkillWithLevel)
| removeSkill (type : SkillSelector.Kind) (skillId : string).

Record Page : Type := {
  st : State;
  awaiting : list Awaiting;
  sent : list ProfileCall;
  toasts : list Notice
}.

Definition setState (f : State -> State) (p : Page) : Page :=
  {| st := f (st p); awaiting := awaiting p; sent := sent p; toasts := toasts p |}.

Definition setIsSaving (v : bool) (s : State) : State :=
  {| isSaving := v; formData := formData s;
     offeredSkills := offeredSkills s; wantedSkills := wantedSkills s |}.

Definition setFormData (f : FormData -> FormData) (s : State) : State :=
  {| isSaving := isSaving s; formData := f (formData s);
     offeredSkills := offeredSkills s; wantedSkills := wantedSkills s |}.

Definition setOfferedSkills (f : list SkillWithLevel -> list SkillWithLevel)
    (s : State) : State :=
  {| isSaving := isSaving s; formData := formData s;
     offeredSkills := f (offeredSkills s); wantedSkills := wantedSkills s |}.

Definition setWantedSkills (f : list SkillWithLevel -> list SkillWithLevel)
    (s : State) : State :=
  {| isSaving := isSaving s; formData := formData s;
     offeredSkills := offeredSkills s; wantedSkills := f (wantedSkills s) |}.

Definition setSkills (type : SkillSelector.Kind)
    (f : list SkillWithLevel -> list SkillWithLevel) (s : State) : State :=
  match type with
  | SkillSelector.offered => setOfferedSkills f s
  | SkillSelector.wanted => setWantedSkills f s
  end.

Definition skillsOf (type : SkillSelector.Kind) (s : State) : list SkillWithLevel :=
  match type with
  | SkillSelector.offered => offeredSkills s
  | SkillSelector.wanted => wantedSkills s
  end.

Definition call (c : ProfileCall) (k : Awaiting) (p : Page) : Page :=
  {| st := st p; awaiting := awaiting p ++ [k]; sent := sent p ++ [c];
     toasts := toasts p |}.

Definition toast (n : Notice) (p : Page) : Page :=
  {| st := st p; awaiting := awaiting p; sent := sent p;
     toasts := toasts p ++ [n] |}.

(** [handleSaveProfile] up to its [await]. *)
Definition handleSaveProfile (p : Page) : Page :=
  let r := st p in
  let p := setState (setIsSaving true) p in
  call (update_profile (profileParams (formData r))) saveProfile p.

(** [handleSaveProfile] from its [await] on. *)
Definition handleSaveProfile_resume (reply : Reply) (p : Page) : Page :=
  let p :=
    match reply with
    | replied true => toast (toast_success "Profile updated successfully!") p
    | _ => toast (toast_failure "Failed to update profile. Please try again.") p
    end in
  setState (setIsSaving false) p.

(** [handleAddOfferedSkill] and [handleAddWantedSkill] up to their
    [await]. *)
Definition handleAddSkill (type : SkillSelector.Kind) (skill : SkillWithLevel)
    (p : Page) : Page :=
  call (match type with
        | SkillSelector.offered => add_offered_skill (offeredParams skill)
        | SkillSelector.wanted => add_wanted_skill (wantedParams skill)
        end) (addSkill type skill) p.

Definition handleAddSkill_resume (type : SkillSelector.Kind)
    (skill : SkillWithLevel) (reply : Reply) (p : Page) : Page :=
  match reply with
  | replied true =>
      toast (toast_success "Skill added successfully!")
            (setState (setSkills type (fun prev => prev ++ [skill])) p)
  | _ => toast (toast_failure "Failed to add skill. Please try again.") p
  end.

(** [handleRemoveOfferedSkill] and [handleRemoveWantedSkill]. *)
Definition handleRemoveSkill (type : SkillSelector.Kind) (skillId : string)
    (p : Page) : Page :=
  call (match type with
        | SkillSelector.offered => remove_offered_skill skillId
        | SkillSelector.wanted => remove_wanted_skill skillId
        end) (removeSkill type skillId) p.

Definition handleRemoveSkill_resume (type : SkillSelector.Kind)
    (skillId : string) (reply : Reply) (p : Page) : Page :=
  match reply with
  | replied true =>
      toast (toast_success "Skill removed successfully!")
            (setState (setSkills type (withoutSkill skillId)) p)
  | _ => toast (toast_failure "Failed to remove skill. Please try again.") p
  end.

(** [disabled] of the Save button. *)
Definition saveDisabled (s : State) : bool :=
  isSaving s || negb (JS.truthy (JS.trim (name (formData s)))).

(** The call whose continuation is the [index]-th of those waiting ends
    with [reply]: the continuation leaves the list and runs. *)
Definition resume (index : nat) (reply : Reply) (p : Page) : Page :=
  match nth_error (awaiting p) index with
  | None => p
  | Some k =>
      let p := {| st := st p;
                  awaiting := firstn index (awaiting p) ++ skipn (S index) (awaiting p);
                  sent := sent p; toasts := toasts p |} in
      match k with
      | saveProfile => handleSaveProfile_resume reply p
      | addSkill type skill => handleAddSkill_resume type skill reply p
      | removeSkill type skillId => handleRemoveSkill_resume type skillId reply p
      end
  end.

Inductive Event : Type :=
| TypeInput (field : Field) (value : string)
| ClickCard (optionId : string)
| SwitchPublic (isPublic : bool)
| ClickSave
| AddSkill (type : SkillSelector.Kind) (skill : SkillWithLevel)
| RemoveSkill (type : SkillSelector.Kind) (skillId : string)
| Replied (index : nat) (reply : Reply).

Definition step (e : Event) (p : Page) : Page :=
  match e with
  | TypeInput field value => setState (setFormData (handleInputChange field value)) p
  | ClickCard optionId =>
      setState (setFormData (setAvailability
                               (AvailabilitySelector.clickCard optionId
                                  (availability (formData (st p)))))) p
  | SwitchPublic isPublic => setState (setFormData (setIsPublic isPublic)) p
  | ClickSave => if saveDisabled (st p) then p else handleSaveProfile p
  | AddSkill type skill => handleAddSkill type skill p
  | RemoveSkill type skillId => handleRemoveSkill type skillId p
  | Replied index reply => resume index reply p
  end.

Definition run (events : list Event) (p : Page) : Page :=
  fold_left (fun p e => step e p) events p.

(** The page as it stands when the profile has been loaded. *)
Definition loaded (f : FormData) (offered wanted : list SkillWithLevel) : Page :=
  {| st := {| isSaving := false; formData := f;
              offeredSkills := offered; wantedSkills := wanted |};
     awaiting := []; sent := []; toasts := [] |}.

(** The number of saves waiting for their reply. *)
Definition savesAwaiting (p : Page) : nat :=
  List.length (filter (fun k => match k with saveProfile => true | _ => false end)
                      (awaiting p)).

End ProfileEdit.

(** ** Vocabulary for the profile pages *)

(** The body of the add call for a skill of a selector of the given
    kind. *)
Definition paramsFor (type : SkillSelector.Kind) (skill : SkillWithLevel) : SkillParams :=
  match type with
  | SkillSelector.offered => offeredParams skill
  | SkillSelector.wanted => wantedParams skill
  end.

(** A string that is empty or starts with a character that is no white
    space. *)
Definition startsClean (s : string) : bool :=
  match s with
  | EmptyString => true
  | String c _ => negb (JS.isWhiteSpace c)
  end.

(** The wizard never leaves its five steps, and is beyond step 2 only
    with a name that is not blank. *)
Definition wizardInvariant (s : ProfileSetup.State) : Prop :=
  1 <= ProfileSetup.currentStep s <= 5 /\
  (3 <= ProfileSetup.currentStep s ->
   JS.trim (name (ProfileSetup.formData s)) <> "").

Definition isUpdate (c : ProfileCall) : bool :=
  match c with
  | update_profile _ => true
  | _ => false
  end.

(** The saving flag is up exactly while one save awaits its reply, and
    every update sent so far carries a name that is not blank. *)
Definition saveInvariant (p : ProfileEdit.Page) : Prop :=
  ProfileEdit.savesAwaiting p
  = (if ProfileEdit.isSaving (ProfileEdit.st p) then 1%nat else 0%nat) /\
  Forall (fun c => match c with
                   | update_profile params => JS.trim (pp_name params) <> ""
                   | _ => True
                   end) (ProfileEdit.sent p).

(** ** Runs on screen, and the vocabulary of failures *)

(** The first listing is on screen while the request the debounce effect
    sent 300 ms after mount (request 1) is still pending. *)
Definition racing : Runtime :=
  run [Elapse 300; BrowseDone 0 (Some firstPage)] (mount boot).






(** ** Properties of the page window *)

Section PageWindow.

Lemma in_upto (lo hi i : Z) : In i (upto lo hi) <-> lo <= i <= hi.
Proof.
  unfold upto. rewrite in_map_iff. split.
  - intros (k & <- & Hk). apply in_seq in Hk. lia.
  - intros Hi. exists (Z.to_nat (i - lo)). split; [lia|].
    apply in_seq. lia.
Qed.

Lemma in_map_Page (i : Z) (l : list Z) : In (Page i) (map Page l) <-> In i l.
Proof.
  rewrite in_map_iff. split.
  - intros (k & E & Hk). now inversion E; subst.
  - intros Hi. now exists i.
Qed.

Lemma ellipsis_not_in_map_Page (l : list Z) : ~ In ellipsis (map Page l).
Proof. rewrite in_map_iff. intros (k & E & _). discriminate E. Qed.

Variables currentPage totalPages : Z.

Lemma small_total_shows_all :
  totalPages <= 5 ->
  generatePageNumbers currentPage totalPages = map Page (upto 1 totalPages).
Proof.
  intros H. unfold generatePageNumbers.
  destruct (Z.leb_spec totalPages 5); [reflexivity | lia].
Qed.

Lemma large_total_has_both_ends :
  5 < totalPages ->
  In (Page 1) (generatePageNumbers currentPage totalPages) /\
  In (Page totalPages) (generatePageNumbers currentPage totalPages).
Proof.
  intros H. unfold generatePageNumbers.
  destruct (Z.leb_spec totalPages 5); [lia|].
  split; [now left | right].
  destruct (currentPage <=? 3).
  - apply in_or_app. right. simpl. tauto.
  - destruct (currentPage >=? totalPages - 2).
    + right. apply in_map_Page, filter_In. split.
      * apply in_upto. lia.
      * apply Z.ltb_lt. lia.
    + right. apply in_or_app. right. simpl. tauto.
Qed.

End PageWindow.

(** C5. The page window: the four button rows the specification lists
    (current page 1, 5 and 10 of 10 pages; any current page of 3 pages);
    with at most five pages every page from 1 to the last is a button, in
    order and without an ellipsis; with more than five pages both page 1
    and the last page are buttons. *)
Theorem generatePageNumbers_window :
  generatePageNumbers 1 10
    = [Page 1; Page 2; Page 3; Page 4; ellipsis; Page 10] /\
  generatePageNumbers 5 10
    = [Page 1; ellipsis; Page 4; Page 5; Page 6; ellipsis; Page 10] /\
  generatePageNumbers 10 10
    = [Page 1; ellipsis; Page 7; Page 8; Page 9; Page 10] /\
  (forall currentPage,
      generatePageNumbers currentPage 3 = [Page 1; Page 2; Page 3]) /\
  (forall currentPage totalPages,
      totalPages <= 5 ->
      generatePageNumbers currentPage totalPages = map Page (upto 1 totalPages) /\
      (forall i, In (Page i) (generatePageNumbers currentPage totalPages)
                 <-> 1 <= i <= totalPages) /\
      ~ In ellipsis (generatePageNumbers currentPage totalPages)) /\
  (forall currentPage totalPages,
      5 < totalPages ->
      In (Page 1) (generatePageNumbers currentPage totalPages) /\
      In (Page totalPages) (generatePageNumbers currentPage totalPages)).
Proof.
  split; [reflexivity|]. split; [reflexivity|]. split; [reflexivity|].
  split; [reflexivity|]. split.
  - intros currentPage totalPages H.
    rewrite small_total_shows_all by assumption. split; [reflexivity|]. split.
    + intros i. rewrite in_map_Page. apply in_upto.
    + apply ellipsis_not_in_map_Page.
  - intros currentPage totalPages H. now apply large_total_has_both_ends.
Qed.

Lemma generatePageNumbers_window_witness :
  generatePageNumbers 2 4 = [Page 1; Page 2; Page 3; Page 4] /\
  In (Page 9) (generatePageNumbers 6 9).
Proof.
  destruct generatePageNumbers_window as (_ & _ & _ & _ & Hsmall & Hlarge).
  split.
  - destruct (Hsmall 2 4) as (E & _); [lia | exact E].
  - destruct (Hlarge 6 9) as (_ & Hlast); [lia | exact Hlast].
Defined.

(** ** Basic facts about the controller functions *)

Section ControllerFacts.

Lemma truthy_iff (s : string) : JS.truthy s = true <-> s <> "".
Proof. destruct s; simpl; split; congruence. Qed.

Lemma truthy_false_iff (s : string) : JS.truthy s = false <-> s = "".
Proof. destruct s; simpl; split; congruence. Qed.

Lemma optionalParam_not_empty (v : string) : optionalParam v <> Some "".
Proof. destruct v; cbv [optionalParam JS.truthy]; congruence. Qed.

Lemma optionalParam_Some (v f : string) :
  optionalParam v = Some f <-> f = v /\ v <> "".
Proof.
  destruct v; cbv [optionalParam JS.truthy]; split.
  - discriminate.
  - intros [_ H]. now elim H.
  - intros E. inversion E. split; congruence.
  - intros [-> _]. reflexivity.
Qed.

Lemma wellFormed_browseRequest (page : Z) (skill location : string) :
  wellFormed (browseRequest page skill location).
Proof.
  simpl. split; [reflexivity|].
  split; apply optionalParam_not_empty.
Qed.

Lemma wellFormed_debounced (query : string) (r : State) :
  wellFormed (debounced query r).
Proof.
  unfold debounced. destruct (JS.truthy (JS.trim query)) eqn:E.
  - simpl. split; [reflexivity|]. now apply truthy_iff.
  - apply wellFormed_browseRequest.
Qed.

Lemma lastFetch_snoc (w : Runtime) (l : list (nat * Request)) (x : nat * Request) :
  fetches w = l ++ [x] -> lastFetch w = Some x.
Proof.
  unfold lastFetch. intros ->. rewrite map_app. simpl. apply last_last.
Qed.

(** What [browseUsers] sends, and when. *)
Lemma fetches_browseUsers (r : State) (page : option Z)
    (skill location : option string) (w : Runtime) :
  fetches (browseUsers r page skill location w)
  = fetches w ++ [(clock w,
                   browseRequest (JS.orDefault 1 page)
                                 (JS.orDefault (skillFilter r) skill)
                                 (JS.orDefault (locationFilter r) location))].
Proof. reflexivity. Qed.

(** What [searchUsers] sends: the choice goes by the trimmed query. *)
Lemma fetches_searchUsers (r : State) (query : string) (w : Runtime) :
  fetches (searchUsers r query w)
  = fetches w ++ [(clock w, debounced query r)].
Proof.
  unfold searchUsers, debounced.
  destruct (JS.truthy (JS.trim query)); reflexivity.
Qed.

Lemma fetches_browseUsers_resume (o : option BrowseUsersResponse.t) (w : Runtime) :
  fetches (browseUsers_resume o w) = fetches w.
Proof. destruct o; reflexivity. Qed.

Lemma fetches_searchUsers_resume (o : option SearchUsersResponse.t) (w : Runtime) :
  fetches (searchUsers_resume o w) = fetches w.
Proof. destruct o; reflexivity. Qed.

Lemma fetches_browseDone (id : nat) (o : option BrowseUsersResponse.t) (w : Runtime) :
  fetches (browseDone id o w) = fetches w.
Proof.
  unfold browseDone. destruct (lookup id (pending w)) as [[p|p]|]; try reflexivity.
  now rewrite fetches_browseUsers_resume.
Qed.

Lemma fetches_searchDone (id : nat) (o : option SearchUsersResponse.t) (w : Runtime) :
  fetches (searchDone id o w) = fetches w.
Proof.
  unfold searchDone. destruct (lookup id (pending w)) as [[p|p]|]; try reflexivity.
  now rewrite fetches_searchUsers_resume.
Qed.

Lemma fetches_changeQuery (text : string) (w : Runtime) :
  fetches (changeQuery text w) = fetches w.
Proof. unfold changeQuery. now destruct (String.eqb _ _). Qed.

(** A step sends at most one request, and a well-formed one. *)
Lemma step_fetches (e : Event) (w : Runtime) :
  fetches (step e w) = fetches w \/
  exists t req, fetches (step e w) = fetches w ++ [(t, req)] /\ wellFormed req.
Proof.
  destruct e; simpl.
  - left. apply fetches_changeQuery.
  - unfold handlePageChange. destruct (negb _); [right | now left].
    eexists _, _. split; [apply fetches_browseUsers | apply wellFormed_browseRequest].
  - right. eexists _, _. split; [reflexivity | apply wellFormed_browseRequest].
  - right. eexists _, _. split; [reflexivity | apply wellFormed_browseRequest].
  - right. eexists _, _. split; [reflexivity | apply wellFormed_browseRequest].
  - right. eexists _, _. split; [reflexivity | apply wellFormed_browseRequest].
  - unfold elapse. destruct (timer w) as [t|]; [|now left].
    destruct (deadline t <=? clock w + dt)%nat; [right | now left].
    eexists _, _. split; [|apply wellFormed_debounced].
    cbn [fetches setClock]. rewrite fetches_searchUsers. reflexivity.
  - left. apply fetches_browseDone.
  - left. apply fetches_searchDone.
Qed.

Lemma reachable_fetches_wellFormed (w : Runtime) :
  reachable w -> Forall (fun f => wellFormed (snd f)) (fetches w).
Proof.
  induction 1 as [|e w Hw IH].
  - change (fetches (mount boot)) with [(0%nat, browseRequest 1 "" "")].
    constructor; [apply wellFormed_browseRequest | constructor].
  - destruct (step_fetches e w) as [-> | (t & req & -> & Hreq)]; [exact IH|].
    apply Forall_app. split; [exact IH|].
    constructor; [exact Hreq | constructor].
Qed.

Lemma run_app (es1 es2 : list Event) (w : Runtime) :
  run (es1 ++ es2) w = run es2 (run es1 w).
Proof. apply fold_left_app. Qed.

Lemma reachable_run (es : list Event) (w : Runtime) :
  reachable w -> reachable (run es w).
Proof.
  revert w. induction es as [|e es IH]; intros w Hw; [exact Hw|].
  apply IH. now constructor.
Qed.

End ControllerFacts.

(** ** Fetch selection *)

(** C9. A browse call asks for exactly the page it is given, with page
    size 12, and carries a skill (location) filter parameter exactly when
    the skill (location) string is not empty; a search call sends the
    query string as it is, with limit 20; and every request a mounted
    component has ever sent has page size 12 and no empty filter
    parameter (browse) or limit 20 (search). *)
Theorem fetch_selection :
  (forall r page skill location w,
      exists p,
        fetches (browseUsers r (Some page) (Some skill) (Some location) w)
        = fetches w ++ [(clock w, browse_users p)] /\
        BrowseUsersParams.page p = page /\
        BrowseUsersParams.page_size p = 12 /\
        (forall f, BrowseUsersParams.skill_filter p = Some f
                   <-> f = skill /\ skill <> "") /\
        (forall f, BrowseUsersParams.location_filter p = Some f
                   <-> f = location /\ location <> "")) /\
  (forall r query w,
      JS.trim query <> "" ->
      fetches (searchUsers r query w)
      = fetches w ++ [(clock w,
                       search_users {| SearchUsersParams.q := query;
                                       SearchUsersParams.limit := 20 |})]) /\
  (forall w,
      reachable w ->
      forall t req, In (t, req) (fetches w) -> wellFormed req).
Proof.
  split; [|split].
  - intros r page skill location w. eexists. split; [apply fetches_browseUsers|].
    cbn [BrowseUsersParams.page BrowseUsersParams.page_size
         BrowseUsersParams.skill_filter BrowseUsersParams.location_filter
         JS.orDefault].
    split; [reflexivity|]. split; [reflexivity|].
    split; intros f; apply optionalParam_Some.
  - intros r query w H. rewrite fetches_searchUsers. unfold debounced.
    apply truthy_iff in H. now rewrite H.
  - intros w Hw t req Hin.
    apply reachable_fetches_wellFormed in Hw.
    rewrite Forall_forall in Hw. exact (Hw _ Hin).
Qed.

Lemma fetch_selection_witness :
  fetches (searchUsers initialState " react " boot)
  = [(0%nat, search_users {| SearchUsersParams.q := " react ";
                             SearchUsersParams.limit := 20 |})] /\
  wellFormed (browseRequest 1 "" "").
Proof.
  destruct fetch_selection as (_ & Hsearch & Hall). split.
  - apply (Hsearch initialState " react " boot). vm_compute. discriminate.
  - apply (Hall (mount boot) reachable_mount 0%nat). simpl. left. reflexivity.
Defined.

(** ** Page clicks *)

(** C10. With a non-empty query in the search box a page click changes
    nothing at all: no request, same list, same pagination fields, same
    filters, same loading flags. With an empty query it sends the browse
    request for that page at once. *)
Theorem page_change_needs_empty_query (w : Runtime) (page : Z) :
  (searchQuery (view w) <> "" -> step (PageChange page) w = w) /\
  (searchQuery (view w) = "" ->
   fetches (step (PageChange page) w)
   = fetches w ++ [(clock w, browseRequest page (skillFilter (view w))
                                           (locationFilter (view w)))]).
Proof.
  simpl. unfold handlePageChange. split; intros H.
  - apply truthy_iff in H. now rewrite H.
  - rewrite H. reflexivity.
Qed.

Lemma page_change_needs_empty_query_witness :
  step (PageChange 2) (run [ChangeQuery "a"] landed) = run [ChangeQuery "a"] landed /\
  fetches (step (PageChange 2) landed)
  = fetches landed ++ [(0%nat, browseRequest 2 "" "")].
Proof.
  split.
  - apply (proj1 (page_change_needs_empty_query (run [ChangeQuery "a"] landed) 2)).
    vm_compute. discriminate.
  - apply (proj2 (page_change_needs_empty_query landed 2)). reflexivity.
Defined.

(** ** Requests that fail *)

Section Pending.


Lemma lookup_filter_other (a b : nat) (l : list (nat * Request)) :
  a <> b ->
  lookup a (filter (fun e => negb (Nat.eqb (fst e) b)) l) = lookup a l.
Proof.
  intros Hab. induction l as [|[k req] l IH]; [reflexivity|].
  simpl. destruct (Nat.eqb k b) eqn:Eb; simpl.
  - apply Nat.eqb_eq in Eb. subst k.
    destruct (Nat.eqb_spec b a); [congruence | exact IH].
  - destruct (Nat.eqb k a); [reflexivity | exact IH].
Qed.

Lemma pending_browseUsers_resume (o : option BrowseUsersResponse.t) (w : Runtime) :
  pending (browseUsers_resume o w) = pending w.
Proof. destruct o; reflexivity. Qed.

Lemma pending_searchUsers_resume (o : option SearchUsersResponse.t) (w : Runtime) :
  pending (searchUsers_resume o w) = pending w.
Proof. destruct o; reflexivity. Qed.

End Pending.

(** ** Responses that arrive out of order *)

Section Acceptance.

(** A browse response that arrives for a pending browse request is
    applied, whatever else is pending. *)
Lemma browseDone_applies (w : Runtime) (id : nat) (params : BrowseUsersParams.t)
    (data : BrowseUsersResponse.t) :
  lookup id (pending w) = Some (browse_users params) ->
  resultPage (view (browseDone id (Some data) w)) = browsePage data /\
  provenance (browseDone id (Some data) w) = Some Browse /\
  loading (view (browseDone id (Some data) w)) = false.
Proof. intros H. unfold browseDone. rewrite H. repeat split. Qed.

Lemma searchDone_applies (w : Runtime) (id : nat) (params : SearchUsersParams.t)
    (data : SearchUsersResponse.t) :
  lookup id (pending w) = Some (search_users params) ->
  resultPage (view (searchDone id (Some data) w)) = searchPage data /\
  provenance (searchDone id (Some data) w) = Some Search /\
  searchLoading (view (searchDone id (Some data) w)) = false.
Proof. intros H. unfold searchDone. rewrite H. repeat split. Qed.

(** Settling one request leaves the others pending. *)
Lemma lookup_after_browseDone (w : Runtime) (a b : nat)
    (o : option BrowseUsersResponse.t) :
  a <> b -> lookup a (pending (browseDone b o w)) = lookup a (pending w).
Proof.
  intros Hab. unfold browseDone.
  destruct (lookup b (pending w)) as [[p|p]|]; try reflexivity.
  rewrite pending_browseUsers_resume. now apply lookup_filter_other.
Qed.

Lemma lookup_after_searchDone (w : Runtime) (a b : nat)
    (o : option SearchUsersResponse.t) :
  a <> b -> lookup a (pending (searchDone b o w)) = lookup a (pending w).
Proof.
  intros Hab. unfold searchDone.
  destruct (lookup b (pending w)) as [[p|p]|]; try reflexivity.
  rewrite pending_searchUsers_resume. now apply lookup_filter_other.
Qed.

End Acceptance.

(** C1, as the code has it. Responses are applied in the order in which
    they arrive: no request carries a token and no response is dropped.
    When two browse requests (or two search requests) are pending and the
    one issued later is answered first, the answer to the earlier one,
    arriving afterwards, replaces the list, the pagination fields and the
    count by its own. *)
Theorem responses_apply_in_arrival_order (w : Runtime) (a b : nat) :
  a <> b ->
  (forall pa pb da db,
      lookup a (pending w) = Some (browse_users pa) ->
      lookup b (pending w) = Some (browse_users pb) ->
      resultPage (view (step (BrowseDone b (Some db)) w)) = browsePage db /\
      resultPage (view (run [BrowseDone b (Some db); BrowseDone a (Some da)] w))
      = browsePage da) /\
  (forall pa pb da db,
      lookup a (pending w) = Some (search_users pa) ->
      lookup b (pending w) = Some (search_users pb) ->
      resultPage (view (step (SearchDone b (Some db)) w)) = searchPage db /\
      resultPage (view (run [SearchDone b (Some db); SearchDone a (Some da)] w))
      = searchPage da).
Proof.
  intros Hab. split; intros pa pb da db Ha Hb; cbn [run fold_left step].
  - split.
    + now apply (browseDone_applies w b pb).
    + apply (browseDone_applies _ a pa).
      now rewrite lookup_after_browseDone.
  - split.
    + now apply (searchDone_applies w b pb).
    + apply (searchDone_applies _ a pa).
      now rewrite lookup_after_searchDone.
Qed.

(** Request 1 is the first-page request the debounce effect sends 300 ms
    after mount; request 2 is the click on page 2, made once the first
    listing is on screen. The answer to the click arrives first. *)
Lemma responses_apply_in_arrival_order_witness :
  let w := step (PageChange 2) racing in
  resultPage (view (step (BrowseDone 2 (Some secondPage)) w)) = browsePage secondPage /\
  resultPage (view (run [BrowseDone 2 (Some secondPage);
                         BrowseDone 1 (Some firstPage)] w))
  = browsePage firstPage.
Proof.
  intros w.
  assert (Hab : 1%nat <> 2%nat) by discriminate.
  assert (Ha : lookup 1 (pending w) = Some (browseRequest 1 "" ""))
    by (vm_compute; reflexivity).
  assert (Hb : lookup 2 (pending w) = Some (browseRequest 2 "" ""))
    by (vm_compute; reflexivity).
  exact (proj1 (responses_apply_in_arrival_order w 1 2 Hab) _ _
               firstPage secondPage Ha Hb).
Defined.

(** C1, as stated, fails, on a run the page can receive. The page mounts
    and, 300 ms later, the debounce effect sends the first-page request
    again (request 1). The answer to the initial request puts page 1 of 3
    on screen with its pagination bar; the user clicks page 2 (request 2,
    issued after request 1, same mode). The answer to request 2 is
    applied; the late answer to request 1 is then applied on top of it
    instead of being dropped, and page 1 replaces the page the user
    asked for. *)
Lemma late_response_overwrites_newer :
  let clicked := step (PageChange 2) racing in
  let w := step (BrowseDone 2 (Some secondPage)) clicked in
  paginationShown (view racing) = true /\
  paginationClick 2 racing = clicked /\
  fetches w = [(0%nat, browseRequest 1 "" ""); (300%nat, browseRequest 1 "" "");
               (300%nat, browseRequest 2 "" "")] /\
  lookup 1 (pending clicked) = Some (browseRequest 1 "" "") /\
  lookup 2 (pending clicked) = Some (browseRequest 2 "" "") /\
  resultPage (view w) = browsePage secondPage /\
  lookup 1 (pending w) = Some (browseRequest 1 "" "") /\
  resultPage (view (step (BrowseDone 1 (Some firstPage)) w)) = browsePage firstPage /\
  resultPage (view (step (BrowseDone 1 (Some firstPage)) w)) <> resultPage (view w).
Proof.
  vm_compute. repeat split. discriminate.
Qed.

(** ** The current result page and the mode on screen *)

Section CurrentPage.

Lemma searchPageFixed_browseUsers (r : State) (page : option Z)
    (skill location : option string) (w : Runtime) :
  searchPageFixed w -> searchPageFixed (browseUsers r page skill location w).
Proof. intros H. exact H. Qed.

Lemma searchPageFixed_searchUsers (r : State) (query : string) (w : Runtime) :
  searchPageFixed w -> searchPageFixed (searchUsers r query w).
Proof.
  intros H. unfold searchUsers.
  destruct (negb (JS.truthy (JS.trim query))); exact H.
Qed.

Lemma searchPageFixed_step (e : Event) (w : Runtime) :
  searchPageFixed w -> searchPageFixed (step e w).
Proof.
  intros H. destruct e; cbn [step].
  - unfold changeQuery. destruct (String.eqb _ _); exact H.
  - unfold handlePageChange. destruct (negb _); exact H.
  - intros Hp. destruct (H Hp) as (_ & H2 & H3 & H4). repeat split; assumption.
  - intros Hp. destruct (H Hp) as (_ & H2 & H3 & H4). repeat split; assumption.
  - intros Hp. destruct (H Hp) as (_ & H2 & H3 & H4). repeat split; assumption.
  - intros Hp. destruct (H Hp) as (_ & H2 & H3 & H4). repeat split; assumption.
  - unfold elapse. destruct (timer w) as [t|]; [|exact H].
    destruct (deadline t <=? clock w + dt)%nat; [|exact H].
    intros Hp. cbn [provenance view setClock] in *.
    refine (searchPageFixed_searchUsers _ _ _ _ Hp). exact H.
  - unfold browseDone. destruct (lookup id (pending w)) as [[p|p]|]; try exact H.
    destruct outcome; [discriminate | exact H].
  - unfold searchDone. destruct (lookup id (pending w)) as [[p|p]|]; try exact H.
    destruct outcome; [intros _; repeat split | exact H].
Qed.

Lemma reachable_searchPageFixed (w : Runtime) :
  reachable w -> searchPageFixed w.
Proof.
  induction 1 as [|e w Hw IH]; [discriminate|].
  now apply searchPageFixed_step.
Qed.

End CurrentPage.

(** C8, as the code has it. An accepted response replaces the list
    together with every pagination field in one step; an accepted search
    response fixes page 1 of 1 with no next and no previous page; and in
    every reachable state in which the list on screen is the answer to a
    search those four fields still hold these values and the pagination
    bar is not rendered. (The mode on screen is read off the query text
    and is not stored with the page.) *)
Theorem accepted_response_replaces_page :
  (forall w id params data,
      lookup id (pending w) = Some (browse_users params) ->
      resultPage (view (step (BrowseDone id (Some data)) w)) = browsePage data) /\
  (forall w id params data,
      lookup id (pending w) = Some (search_users params) ->
      resultPage (view (step (SearchDone id (Some data)) w)) = searchPage data /\
      rp_page (searchPage data) = 1 /\
      rp_totalPages (searchPage data) = 1 /\
      rp_hasNext (searchPage data) = false /\
      rp_hasPrevious (searchPage data) = false) /\
  (forall w,
      reachable w ->
      provenance w = Some Search ->
      currentPage (view w) = 1 /\ totalPages (view w) = 1 /\
      hasNext (view w) = false /\ hasPrevious (view w) = false /\
      paginationShown (view w) = false).
Proof.
  split; [|split].
  - intros w id params data H. now apply (browseDone_applies w id params).
  - intros w id params data H. split; [|repeat split].
    now apply (searchDone_applies w id params).
  - intros w Hw Hp.
    destruct (reachable_searchPageFixed w Hw Hp) as (H1 & H2 & H3 & H4).
    repeat (split; [assumption|]).
    unfold paginationShown. rewrite H2. cbn.
    now rewrite !andb_false_r.
Qed.

(** The query "a" is typed, its search is sent after 300 ms and
    answered. *)
Lemma accepted_response_replaces_page_witness :
  let w := run [ChangeQuery "a"; Elapse 300] landed in
  resultPage (view (step (SearchDone 1 (Some found)) w)) = searchPage found /\
  paginationShown (view (step (SearchDone 1 (Some found)) w)) = false.
Proof.
  intros w.
  destruct accepted_response_replaces_page as (_ & Hsearch & Hinv). split.
  - apply (Hsearch w 1%nat {| SearchUsersParams.q := "a";
                              SearchUsersParams.limit := 20 |} found eq_refl).
  - apply (Hinv (step (SearchDone 1 (Some found)) w)).
    + apply reachable_step. unfold w, landed. rewrite <- run_app.
      apply reachable_run, reachable_mount.
    + reflexivity.
Defined.

(** C8, as stated, fails. With the query "a" in the box and its search
    results on screen, a click on the popular-skill chip Design (or
    applying Design as a filter) sends a browse request; its answer is
    accepted, so the page on screen is a browse page, two pages long with
    a next page, under the header of the search mode. Already the first
    keystroke puts the search header over the browse page on screen. *)
Lemma browse_page_under_search_header :
  let typed := run [ChangeQuery "a"] landed in
  let searching := run [Elapse 300; SearchDone 1 (Some found)] typed in
  let chip := run [PopularSkillClick "Design"; BrowseDone 2 (Some designPage)] searching in
  let filter := run [FilterChange (Some "Design") (Some "");
                     BrowseDone 2 (Some designPage)] searching in
  (headerMode (view typed) = Search /\
   provenance typed = Some Browse /\
   usersShown (view typed) = true /\
   resultPage (view typed) = browsePage firstPage) /\
  (headerMode (view searching) = Search /\ provenance searching = Some Search) /\
  (headerMode (view chip) = Search /\
   resultsHeader (view chip) = "Search Results" /\
   provenance chip = Some Browse /\
   usersShown (view chip) = true /\
   resultPage (view chip) = browsePage designPage /\
   rp_totalPages (resultPage (view chip)) = 2) /\
  (headerMode (view filter) = Search /\
   resultsHeader (view filter) = "Search Results" /\
   provenance filter = Some Browse /\
   usersShown (view filter) = true /\
   resultPage (view filter) = browsePage designPage /\
   rp_totalPages (resultPage (view filter)) = 2).
Proof. vm_compute. repeat split. Qed.

(** ** Mode selection on a blank query *)

Section Trim.

Lemma trimEnd_empty (s : string) : JS.trimEnd s = "" <-> JS.blank s = true.
Proof.
  induction s as [|c rest IH]; [now split|].
  cbn [JS.trimEnd JS.blank]. rewrite andb_true_iff, <- IH.
  destruct (JS.trimEnd rest); destruct (JS.isWhiteSpace c); split;
    try discriminate; try tauto; intros [? ?]; discriminate.
Qed.

Lemma blank_trimStart (s : string) : JS.blank (JS.trimStart s) = JS.blank s.
Proof.
  induction s as [|c rest IH]; [reflexivity|].
  cbn [JS.trimStart]. destruct (JS.isWhiteSpace c) eqn:E; [|reflexivity].
  cbn [JS.blank]. now rewrite E, IH.
Qed.

(** [q.trim()] is empty exactly for a query of white space only. *)
Lemma trim_empty (s : string) : JS.trim s = "" <-> JS.blank s = true.
Proof. unfold JS.trim. now rewrite trimEnd_empty, blank_trimStart. Qed.

(** The two tests of the component: the request goes by the trimmed
    query, the header by the query as typed. *)
Lemma request_and_header_modes (query : string) (r : State) :
  (debounced query r = searchRequest query <-> JS.blank query = false) /\
  (headerMode (setSearchQuery query r) = Search <-> query <> "").
Proof.
  split.
  - unfold debounced. destruct (JS.truthy (JS.trim query)) eqn:E.
    + apply truthy_iff in E. rewrite trim_empty in E.
      split; [intros _; now destruct (JS.blank query) | reflexivity].
    + apply truthy_false_iff, trim_empty in E. rewrite E.
      split; discriminate.
  - unfold headerMode. cbn [searchQuery setSearchQuery].
    rewrite <- truthy_iff. destruct (JS.truthy query); split; congruence.
Qed.

End Trim.

(** C3 fails on the code at the query of three spaces. The debounce
    callback trims the query and sends the browse request for page 1, yet
    the header and the pagination guard test the untrimmed text: once the
    three-page listing has arrived the header reads Search Results, the
    pagination bar is not rendered and a page click does nothing. *)
Theorem blank_query_splits_the_mode :
  let sent := run [ChangeQuery "   "; Elapse 300] landed in
  let shown := step (BrowseDone 1 (Some firstPage)) sent in
  JS.trim "   " = "" /\
  lastFetch sent = Some (300%nat, browseRequest 1 "" "") /\
  resultPage (view shown) = browsePage firstPage /\
  loading (view shown) = false /\
  totalPages (view shown) = 3 /\
  headerMode (view shown) = Search /\
  resultsHeader (view shown) = "Search Results" /\
  paginationShown (view shown) = false /\
  step (PageChange 2) shown = shown.
Proof. vm_compute. repeat split. Qed.

(** ** Clearing the filters *)

Section ClearFilters.

(** The sidebar's clear action passes two empty strings, so its request
    has no filter. *)
Lemma sidebar_clear_sends_unfiltered (w : Runtime) :
  fetches (step SidebarClear w) = fetches w ++ [(clock w, browseRequest 1 "" "")] /\
  skillFilter (view (step SidebarClear w)) = "" /\
  locationFilter (view (step SidebarClear w)) = "".
Proof. repeat split. Qed.

(** The header's button passes no filter argument, so [browseUsers]
    falls back on the filters of the render the button belongs to. *)
Lemma header_clear_sends_rendered_filters (w : Runtime) :
  fetches (step ClearFiltersClick w)
  = fetches w ++ [(clock w, browseRequest 1 (skillFilter (view w))
                                          (locationFilter (view w)))] /\
  skillFilter (view (step ClearFiltersClick w)) = "" /\
  locationFilter (view (step ClearFiltersClick w)) = "".
Proof. repeat split. Qed.

End ClearFilters.

(** C6 fails on the code for the Clear Filters button of the results
    header. With the skill filter Design active in browse mode, the click
    empties both filter states, but the request it sends still carries
    [skill_filter = "Design"]; the sidebar's clear action, from the same
    state, sends the unfiltered request for page 1. *)
Theorem header_clear_button_keeps_filter :
  let w := run [FilterChange (Some "Design") (Some "");
                BrowseDone 1 (Some designPage)] landed in
  skillFilter (view w) = "Design" /\
  headerMode (view w) = Browse /\
  clearFiltersShown (view w) = true /\
  skillFilter (view (step ClearFiltersClick w)) = "" /\
  lastFetch (step ClearFiltersClick w)
  = Some (0%nat,
          browse_users {| BrowseUsersParams.page := 1;
                          BrowseUsersParams.page_size := 12;
                          BrowseUsersParams.skill_filter := Some "Design";
                          BrowseUsersParams.location_filter := None |}) /\
  lastFetch (step SidebarClear w)
  = Some (0%nat,
          browse_users {| BrowseUsersParams.page := 1;
                          BrowseUsersParams.page_size := 12;
                          BrowseUsersParams.skill_filter := None;
                          BrowseUsersParams.location_filter := None |}).
Proof. vm_compute. repeat split. Qed.

(** ** The debounce timer *)

Section Debounce.

Lemma sameIntent_refl (w : Runtime) : sameIntent w w.
Proof. repeat split. Qed.

Lemma sameIntent_trans (w1 w2 w3 : Runtime) :
  sameIntent w1 w2 -> sameIntent w2 w3 -> sameIntent w1 w3.
Proof. unfold sameIntent. intuition congruence. Qed.

Lemma sameIntent_searchUsers (r : State) (query : string) (w : Runtime) :
  sameIntent w (searchUsers r query w).
Proof.
  unfold searchUsers. destruct (negb (JS.truthy (JS.trim query))); repeat split.
Qed.

Lemma timer_searchUsers (r : State) (query : string) (w : Runtime) :
  timer (searchUsers r query w) = timer w.
Proof.
  unfold searchUsers. now destruct (negb (JS.truthy (JS.trim query))).
Qed.

(** A timeout that is not yet due only sees the clock advance. *)
Lemma elapse_waits (w : Runtime) (t : Timeout) (dt : nat) :
  timer w = Some t ->
  (clock w + dt < deadline t)%nat ->
  elapse dt w = setClock (clock w + dt) w.
Proof.
  intros Ht Hlt. unfold elapse. rewrite Ht.
  destruct (Nat.leb_spec (deadline t) (clock w + dt)); [lia | reflexivity].
Qed.

Lemma elapse_idle (w : Runtime) (dt : nat) :
  timer w = None -> elapse dt w = setClock (clock w + dt) w.
Proof. intros Ht. unfold elapse. now rewrite Ht. Qed.

(** A timeout that comes due sends the request of its closure, once. *)
Lemma elapse_fires (w : Runtime) (t : Timeout) (dt : nat) :
  timer w = Some t ->
  (deadline t <= clock w + dt)%nat ->
  fetches (elapse dt w)
  = fetches w ++ [(Nat.max (clock w) (deadline t),
                   debounced (searchQuery (closure t)) (closure t))] /\
  timer (elapse dt w) = None /\
  clock (elapse dt w) = (clock w + dt)%nat /\
  sameIntent w (elapse dt w).
Proof.
  intros Ht Hle. unfold elapse. rewrite Ht.
  destruct (Nat.leb_spec (deadline t) (clock w + dt)); [|lia].
  cbn [fetches timer clock view setClock].
  rewrite fetches_searchUsers, timer_searchUsers.
  split; [reflexivity|]. split; [reflexivity|]. split; [reflexivity|].
  apply (sameIntent_searchUsers (closure t) (searchQuery (closure t))
           (setTimer None (setClock (Nat.max (clock w) (deadline t)) w))).
Qed.

Lemma sameIntent_elapse (w : Runtime) (dt : nat) : sameIntent w (elapse dt w).
Proof.
  destruct (timer w) as [t|] eqn:Ht.
  - destruct (Nat.leb_spec (deadline t) (clock w + dt)).
    + now apply (elapse_fires w t dt).
    + rewrite (elapse_waits w t dt) by assumption. repeat split.
  - rewrite elapse_idle by assumption. repeat split.
Qed.

(** A request that settles touches neither the intent nor the timer,
    the clock or the log of requests. *)
Lemma settling_step (e : Event) (w : Runtime) :
  isSettling e = true ->
  sameIntent w (step e w) /\
  timer (step e w) = timer w /\
  clock (step e w) = clock w /\
  fetches (step e w) = fetches w.
Proof.
  destruct e; try discriminate; intros _; cbn [step].
  - unfold browseDone.
    destruct (lookup id (pending w)) as [[p|p]|]; try (repeat split; fail).
    destruct outcome; repeat split.
  - unfold searchDone.
    destruct (lookup id (pending w)) as [[p|p]|]; try (repeat split; fail).
    destruct outcome; repeat split.
Qed.

Lemma settling_run (es : list Event) (w : Runtime) :
  forallb isSettling es = true ->
  sameIntent w (run es w) /\
  timer (run es w) = timer w /\
  clock (run es w) = clock w /\
  fetches (run es w) = fetches w.
Proof.
  revert w. induction es as [|e es IH]; intros w H.
  - repeat split.
  - simpl in H. apply andb_true_iff in H. destruct H as [He Hes].
    destruct (settling_step e w He) as (Hi & Ht & Hc & Hf).
    destruct (IH (step e w) Hes) as (Hi' & Ht' & Hc' & Hf').
    cbn [run fold_left]. fold (run es (step e w)).
    split; [exact (sameIntent_trans _ _ _ Hi Hi')|].
    repeat split; congruence.
Qed.

Lemma passive_step (e : Event) (w : Runtime) :
  isPassive e = true -> sameIntent w (step e w).
Proof.
  destruct e; try discriminate; intros _.
  - apply sameIntent_elapse.
  - now apply settling_step.
  - now apply settling_step.
Qed.

Lemma passive_run (es : list Event) (w : Runtime) :
  forallb isPassive es = true -> sameIntent w (run es w).
Proof.
  revert w. induction es as [|e es IH]; intros w H.
  - apply sameIntent_refl.
  - simpl in H. apply andb_true_iff in H. destruct H as [He Hes].
    cbn [run fold_left]. fold (run es (step e w)).
    exact (sameIntent_trans _ _ _ (passive_step e w He) (IH _ Hes)).
Qed.

Lemma changeQuery_arms (text : string) (w : Runtime) :
  text <> searchQuery (view w) ->
  armed (changeQuery text w) /\
  searchQuery (view (changeQuery text w)) = text /\
  skillFilter (view (changeQuery text w)) = skillFilter (view w) /\
  locationFilter (view (changeQuery text w)) = locationFilter (view w) /\
  clock (changeQuery text w) = clock w /\
  fetches (changeQuery text w) = fetches w.
Proof.
  intros H. unfold changeQuery.
  destruct (String.eqb_spec text (searchQuery (view w))); [contradiction|].
  repeat split.
Qed.

(** During a search excursion the query stays non-empty and the filters
    stay as they are. *)
Lemma staysInSearch_step (e : Event) (w : Runtime) :
  staysInSearch e = true ->
  searchQuery (view w) <> "" ->
  searchQuery (view (step e w)) <> "" /\
  skillFilter (view (step e w)) = skillFilter (view w) /\
  locationFilter (view (step e w)) = locationFilter (view w).
Proof.
  intros He Hq.
  assert (Hpassive : isPassive e = true ->
                     searchQuery (view (step e w)) <> "" /\
                     skillFilter (view (step e w)) = skillFilter (view w) /\
                     locationFilter (view (step e w)) = locationFilter (view w)).
  { intros Hp. destruct (passive_step e w Hp) as (H1 & H2 & H3).
    rewrite H1. now repeat split. }
  destruct e; try (now apply Hpassive); try discriminate.
  cbn [staysInSearch] in He. cbn [step]. unfold changeQuery.
  destruct (String.eqb text (searchQuery (view w))); [now repeat split|].
  cbn [view setTimer setState searchQuery skillFilter locationFilter setSearchQuery].
  split; [now apply truthy_iff | now split].
Qed.

Lemma staysInSearch_run (es : list Event) (w : Runtime) :
  forallb staysInSearch es = true ->
  searchQuery (view w) <> "" ->
  searchQuery (view (run es w)) <> "" /\
  skillFilter (view (run es w)) = skillFilter (view w) /\
  locationFilter (view (run es w)) = locationFilter (view w).
Proof.
  revert w. induction es as [|e es IH]; intros w H Hq.
  - now repeat split.
  - simpl in H. apply andb_true_iff in H. destruct H as [He Hes].
    destruct (staysInSearch_step e w He Hq) as (Hq1 & Hs1 & Hl1).
    cbn [run fold_left]. fold (run es (step e w)).
    destruct (IH (step e w) Hes Hq1) as (Hq2 & Hs2 & Hl2).
    split; [exact Hq2|]. split; congruence.
Qed.

(** Keystrokes less than 300 ms apart send nothing and leave the timer
    armed by the last of them. *)
Lemma typing_sends_nothing (keys : list (nat * string)) (w : Runtime) :
  armed w ->
  changes (searchQuery (view w)) (map snd keys) ->
  Forall (fun k => (fst k < 300)%nat) keys ->
  armed (run (typing keys) w) /\
  fetches (run (typing keys) w) = fetches w /\
  searchQuery (view (run (typing keys) w))
  = last (map snd keys) (searchQuery (view w)) /\
  skillFilter (view (run (typing keys) w)) = skillFilter (view w) /\
  locationFilter (view (run (typing keys) w)) = locationFilter (view w).
Proof.
  revert w. induction keys as [|[gap text] keys IH]; intros w Harm Hch Hgap.
  - repeat split. exact Harm.
  - inversion Hgap as [|k ks Hlt Hrest]; subst. cbn [fst] in Hlt.
    cbn [map snd changes] in Hch. destruct Hch as [Hne Hch].
    cbn [typing run fold_left step].
    rewrite (elapse_waits w _ gap Harm) by (cbn [deadline]; lia).
    set (w1 := changeQuery text (setClock (clock w + gap) w)).
    destruct (changeQuery_arms text (setClock (clock w + gap) w) Hne)
      as (Ha & Hq & Hs & Hl & Hc & Hf).
    fold w1 in Ha, Hq, Hs, Hl, Hc, Hf.
    fold (run (typing keys) w1).
    destruct (IH w1 Ha) as (Ha' & Hf' & Hq' & Hs' & Hl').
    + now rewrite Hq.
    + exact Hrest.
    + split; [exact Ha'|]. split; [now rewrite Hf', Hf|].
      split; [|split; [now rewrite Hs', Hs | now rewrite Hl', Hl]].
      rewrite Hq', Hq. cbn [map snd].
      destruct (map snd keys) as [|x xs] eqn:E; [reflexivity|].
      cbn [last]. clear. revert x. induction xs as [|y ys IHy]; intros x.
      * reflexivity.
      * cbn [last] in *. apply IHy.
Qed.

End Debounce.

(** C2. A burst of query changes, each less than 300 ms after the one
    before, sends nothing while it lasts and nothing during the next
    300 ms; exactly one request goes out, 300 ms after the last change,
    and it is the request for the final text of the box (a search for it,
    or the browse of page 1 when it is blank). A filter change, and a
    page click in browse mode, send their browse request in the very step
    of the intent, at the current time. *)
Theorem debounce_sends_one_request :
  (forall w text keys,
      text <> searchQuery (view w) ->
      changes text (map snd keys) ->
      Forall (fun k => (fst k < 300)%nat) keys ->
      let typed := run (ChangeQuery text :: typing keys) w in
      let final := last (map snd keys) text in
      searchQuery (view typed) = final /\
      fetches typed = fetches w /\
      (forall dt, (dt < 300)%nat -> fetches (step (Elapse dt) typed) = fetches w) /\
      (forall dt more,
          (300 <= dt)%nat ->
          fetches (step (Elapse dt) typed)
          = fetches w ++ [((clock typed + 300)%nat, debounced final (view w))] /\
          fetches (run [Elapse dt; Elapse more] typed)
          = fetches (step (Elapse dt) typed))) /\
  (forall w skill location,
      fetches (step (FilterChange skill location) w)
      = fetches w ++ [(clock w,
                       browseRequest 1 (JS.orDefault (skillFilter (view w)) skill)
                                       (JS.orDefault (locationFilter (view w)) location))]) /\
  (forall w page,
      headerMode (view w) = Browse ->
      fetches (step (PageChange page) w)
      = fetches w ++ [(clock w, browseRequest page (skillFilter (view w))
                                              (locationFilter (view w)))]).
Proof.
  split; [|split].
  - intros w text keys Hne Hch Hgap typed final.
    destruct (changeQuery_arms text w Hne) as (Ha & Hq & Hs & Hl & Hc & Hf).
    assert (Hch' : changes (searchQuery (view (changeQuery text w))) (map snd keys))
      by now rewrite Hq.
    destruct (typing_sends_nothing keys (changeQuery text w) Ha Hch' Hgap)
      as (Ha' & Hf' & Hq' & Hs' & Hl').
    change (run (typing keys) (changeQuery text w)) with typed in *.
    rewrite Hq in Hq'. fold final in Hq'.
    rewrite Hf in Hf'. rewrite Hs in Hs'. rewrite Hl in Hl'.
    split; [exact Hq'|]. split; [exact Hf'|]. split.
    + intros dt Hdt. cbn [step].
      rewrite (elapse_waits typed _ dt Ha') by (cbn [deadline]; lia).
      exact Hf'.
    + intros dt more Hdt. cbn [run fold_left step].
      destruct (elapse_fires typed _ dt Ha') as (Hfire & Htimer & _ & _);
        [cbn [deadline]; lia|].
      cbn [deadline closure] in Hfire. split.
      * rewrite Hfire, Hf', Hq'.
        replace (Nat.max (clock typed) (clock typed + 300)) with (clock typed + 300)%nat
          by lia.
        unfold debounced. now rewrite Hs', Hl'.
      * now rewrite (elapse_idle _ more Htimer).
  - intros w skill location. reflexivity.
  - intros w page Hmode. cbn [step]. unfold handlePageChange.
    unfold headerMode in Hmode.
    destruct (JS.truthy (searchQuery (view w))); [discriminate | reflexivity].
Qed.

(** Three changes within 200 ms, "r", "re", "rea": one search, for "rea",
    300 ms after the third. *)
Lemma debounce_sends_one_request_witness :
  let typed := run (ChangeQuery "r" :: typing [(100%nat, "re"); (100%nat, "rea")]) landed in
  fetches typed = fetches landed /\
  fetches (step (Elapse 300) typed)
  = fetches landed ++ [(500%nat, searchRequest "rea")] /\
  fetches (step (PageChange 3) landed)
  = fetches landed ++ [(0%nat, browseRequest 3 "" "")].
Proof.
  intros typed.
  destruct debounce_sends_one_request as (Hburst & _ & Hpage).
  destruct (Hburst landed "r" [(100%nat, "re"); (100%nat, "rea")]) as (_ & Hquiet & _ & Hfire).
  - vm_compute. discriminate.
  - cbn. repeat split; discriminate.
  - repeat constructor.
  - split; [exact Hquiet|]. split.
    + destruct (Hfire 300%nat 0%nat) as [Hone _]; [lia | exact Hone].
    + apply Hpage. reflexivity.
Defined.

(** ** Leaving the search mode *)

(** C4, as the code has it. From browse mode, a non-empty query is typed
    and, after any further edits that keep it non-empty, any waiting and
    any answers, cleared again. The clear puts the header back to browse
    mode and is no no-op: whatever answers arrive meanwhile, 300 ms after
    it exactly one request goes out, the browse request for page 1 (not
    for the page shown before the excursion) under the skill and location
    filters that were active before the excursion; the filter states
    themselves are untouched. *)
Theorem clearing_query_browses_page_one
    (w : Runtime) (text : string) (excursion answers : list Event) (dt : nat) :
  searchQuery (view w) = "" ->
  text <> "" ->
  forallb staysInSearch excursion = true ->
  forallb isSettling answers = true ->
  (300 <= dt)%nat ->
  let cleared := run (ChangeQuery text :: excursion ++ [ChangeQuery ""]) w in
  let back := run (answers ++ [Elapse dt]) cleared in
  headerMode (view cleared) = Browse /\
  fetches back
  = fetches cleared ++ [((clock cleared + 300)%nat,
                         browseRequest 1 (skillFilter (view w))
                                         (locationFilter (view w)))] /\
  searchQuery (view back) = "" /\
  skillFilter (view back) = skillFilter (view w) /\
  locationFilter (view back) = locationFilter (view w).
Proof.
  intros Hq0 Hne Hexc Hans Hdt cleared back.
  assert (Hne' : text <> searchQuery (view w)) by now rewrite Hq0.
  destruct (changeQuery_arms text w Hne') as (_ & Hq1 & Hs1 & Hl1 & _ & _).
  assert (Hq1' : searchQuery (view (changeQuery text w)) <> "") by now rewrite Hq1.
  destruct (staysInSearch_run excursion (changeQuery text w) Hexc Hq1')
    as (Hq2 & Hs2 & Hl2).
  set (w2 := run excursion (changeQuery text w)) in *.
  assert (Hclear : "" <> searchQuery (view w2)) by congruence.
  destruct (changeQuery_arms "" w2 Hclear) as (Ha3 & Hq3 & Hs3 & Hl3 & _ & _).
  assert (Ecleared : cleared = changeQuery "" w2).
  { unfold cleared. cbn [run fold_left step].
    fold (run (excursion ++ [ChangeQuery ""]) (changeQuery text w)).
    now rewrite run_app. }
  rewrite <- Ecleared in Ha3, Hq3, Hs3, Hl3.
  destruct (settling_run answers cleared Hans) as ((Hq4 & Hs4 & Hl4) & Ht4 & Hc4 & Hf4).
  set (w4 := run answers cleared) in *.
  assert (Eback : back = elapse dt w4).
  { unfold back. now rewrite run_app. }
  unfold armed in Ha3. rewrite <- Ht4 in Ha3.
  destruct (elapse_fires w4 _ dt Ha3) as (Hfire & _ & _ & (Hq5 & Hs5 & Hl5));
    [cbn [deadline]; lia|].
  cbn [deadline closure] in Hfire. rewrite <- Eback in Hfire, Hq5, Hs5, Hl5.
  split.
  - unfold headerMode. now rewrite Hq3.
  - split.
    + rewrite Hfire, Hf4, Hc4, Hq3.
      replace (Nat.max (clock cleared) (clock cleared + 300)) with (clock cleared + 300)%nat
        by lia.
      unfold debounced. cbn [JS.trim JS.trimStart JS.trimEnd JS.truthy].
      now rewrite Hs3, Hs2, Hs1, Hl3, Hl2, Hl1.
    + split; [congruence|]. split; congruence.
Qed.

(** On page 2 of the Design listing, "a" is typed, searched and answered,
    then cleared. *)
Lemma clearing_query_browses_page_one_witness :
  let w := onDesignPageTwo in
  let cleared := run (ChangeQuery "a" :: [Elapse 400; SearchDone 3 (Some found)]
                        ++ [ChangeQuery ""]) w in
  let back := run ([] ++ [Elapse 300]) cleared in
  headerMode (view cleared) = Browse /\
  fetches back
  = fetches cleared ++ [((clock cleared + 300)%nat,
                         browseRequest 1 (skillFilter (view w))
                                         (locationFilter (view w)))] /\
  searchQuery (view back) = "" /\
  skillFilter (view back) = skillFilter (view w) /\
  locationFilter (view back) = locationFilter (view w).
Proof.
  intros w.
  assert (H1 : searchQuery (view w) = "") by (vm_compute; reflexivity).
  assert (H2 : "a" <> "") by discriminate.
  assert (H3 : forallb staysInSearch [Elapse 400; SearchDone 3 (Some found)] = true)
    by reflexivity.
  assert (H4 : forallb isSettling [] = true) by reflexivity.
  assert (H5 : (300 <= 300)%nat) by lia.
  exact (clearing_query_browses_page_one w "a" _ [] 300 H1 H2 H3 H4 H5).
Defined.

(** C4, as stated, fails: before the excursion page 2 is current, and the
    request that follows the clearing of the query asks for page 1. *)
Lemma clearing_query_forgets_the_page :
  let back := run [ChangeQuery "a"; Elapse 400; SearchDone 3 (Some found);
                   ChangeQuery ""; Elapse 300] onDesignPageTwo in
  currentPage (view onDesignPageTwo) = 2 /\
  skillFilter (view onDesignPageTwo) = "Design" /\
  headerMode (view onDesignPageTwo) = Browse /\
  lastFetch back = Some (700%nat, browseRequest 1 "Design" "") /\
  lastFetch back <> Some (700%nat, browseRequest 2 "Design" "") /\
  currentPage (view (step (BrowseDone 4 (Some designPage)) back)) = 1.
Proof.
  vm_compute. repeat split. discriminate.
Qed.

(** ** The pagination bar: further properties *)

Section PageBar.

Lemma upto_nil (lo hi : Z) : hi < lo -> upto lo hi = [].
Proof.
  intros H. unfold upto. replace (Z.to_nat (hi - lo + 1)) with 0%nat by lia.
  reflexivity.
Qed.

Lemma upto_cons (lo hi : Z) : lo <= hi -> upto lo hi = lo :: upto (lo + 1) hi.
Proof.
  intros H. unfold upto.
  replace (Z.to_nat (hi - lo + 1)) with (S (Z.to_nat (hi - (lo + 1) + 1))) by lia.
  cbn [seq map]. f_equal; [lia|].
  rewrite <- seq_shift, map_map. apply map_ext. intros k. lia.
Qed.

Lemma numbers_map_Page (l : list Z) : Pagination.numbers (map Page l) = l.
Proof. induction l as [|n l IH]; [reflexivity|]. cbn. now rewrite IH. Qed.

(** The four shapes of the row of buttons. *)
Lemma generatePageNumbers_shape (currentPage totalPages : Z) :
  (totalPages <= 5 /\
   generatePageNumbers currentPage totalPages = map Page (upto 1 totalPages)) \/
  (5 < totalPages /\ currentPage <= 3 /\
   generatePageNumbers currentPage totalPages
   = [Page 1; Page 2; Page 3; Page 4; ellipsis; Page totalPages]) \/
  (5 < totalPages /\ 3 < currentPage /\ totalPages - 2 <= currentPage /\
   generatePageNumbers currentPage totalPages
   = [Page 1; ellipsis; Page (totalPages - 3); Page (totalPages - 2);
      Page (totalPages - 1); Page totalPages]) \/
  (5 < totalPages /\ 3 < currentPage /\ currentPage < totalPages - 2 /\
   generatePageNumbers currentPage totalPages
   = [Page 1; ellipsis; Page (currentPage - 1); Page currentPage;
      Page (currentPage + 1); ellipsis; Page totalPages]).
Proof.
  unfold generatePageNumbers.
  destruct (Z.leb_spec totalPages 5) as [Hs|Hl]; [left; now split|right].
  destruct (Z.leb_spec currentPage 3) as [Hb|Hb]; [left; now repeat split|right].
  destruct (Z.geb_spec currentPage (totalPages - 2)) as [He|He]; [left|right].
  - repeat (split; [lia|]).
    rewrite (upto_cons (totalPages - 3)) by lia.
    replace (totalPages - 3 + 1) with (totalPages - 2) by lia.
    rewrite (upto_cons (totalPages - 2)) by lia.
    replace (totalPages - 2 + 1) with (totalPages - 1) by lia.
    rewrite (upto_cons (totalPages - 1)) by lia.
    replace (totalPages - 1 + 1) with totalPages by lia.
    rewrite (upto_cons totalPages) by lia.
    rewrite upto_nil by lia. cbn [filter].
    replace (1 <? totalPages - 3) with true by (symmetry; apply Z.ltb_lt; lia).
    replace (1 <? totalPages - 2) with true by (symmetry; apply Z.ltb_lt; lia).
    replace (1 <? totalPages - 1) with true by (symmetry; apply Z.ltb_lt; lia).
    replace (1 <? totalPages) with true by (symmetry; apply Z.ltb_lt; lia).
    reflexivity.
  - repeat (split; [lia|]).
    rewrite (upto_cons (currentPage - 1)) by lia.
    replace (currentPage - 1 + 1) with currentPage by lia.
    rewrite (upto_cons currentPage) by lia.
    rewrite (upto_cons (currentPage + 1)) by lia.
    rewrite upto_nil by lia. reflexivity.
Qed.

Lemma upto_small (totalPages : Z) :
  totalPages <= 5 ->
  upto 1 totalPages = [] /\ totalPages <= 0 \/
  upto 1 totalPages = [1] /\ totalPages = 1 \/
  upto 1 totalPages = [1; 2] /\ totalPages = 2 \/
  upto 1 totalPages = [1; 2; 3] /\ totalPages = 3 \/
  upto 1 totalPages = [1; 2; 3; 4] /\ totalPages = 4 \/
  upto 1 totalPages = [1; 2; 3; 4; 5] /\ totalPages = 5.
Proof.
  intros H.
  assert (C : totalPages <= 0 \/ totalPages = 1 \/ totalPages = 2 \/ totalPages = 3
              \/ totalPages = 4 \/ totalPages = 5) by lia.
  destruct C as [C|[C|[C|[C|[C|C]]]]]; [left | subst; tauto ..].
  split; [now apply upto_nil; lia | exact C].
Qed.

Lemma page_row_facts (currentPage totalPages : Z) :
  StronglySorted Z.lt
    (Pagination.numbers (generatePageNumbers currentPage totalPages)) /\
  Forall (fun n => 1 <= n <= totalPages)
    (Pagination.numbers (generatePageNumbers currentPage totalPages)) /\
  (List.length (generatePageNumbers currentPage totalPages) <= 7)%nat.
Proof.
  destruct (generatePageNumbers_shape currentPage totalPages)
    as [(H & ->)|[(H & Hc & ->)|[(H & Hc & Hd & ->)|(H & Hc & Hd & ->)]]].
  - rewrite numbers_map_Page, length_map.
    destruct (upto_small totalPages H)
      as [(-> & E)|[(-> & E)|[(-> & E)|[(-> & E)|[(-> & E)|(-> & E)]]]]];
      (split; [|split]);
      repeat (constructor; try lia); cbn [List.length]; lia.
  - cbn [Pagination.numbers List.length]. split; [|split];
      repeat (constructor; try lia).
  - cbn [Pagination.numbers List.length]. split; [|split];
      repeat (constructor; try lia).
  - cbn [Pagination.numbers List.length]. split; [|split];
      repeat (constructor; try lia).
Qed.

End PageBar.

(** X1. Whatever the current page, even outside the range, the numbered
    buttons come in strictly increasing order, so none is shown twice;
    each is a page between 1 and the last page; and the row has at most
    seven items. *)
Theorem page_buttons_increasing_and_in_range (currentPage totalPages : Z) :
  let items := generatePageNumbers currentPage totalPages in
  StronglySorted Z.lt (Pagination.numbers items) /\
  Forall (fun n => 1 <= n <= totalPages) (Pagination.numbers items) /\
  (List.length items <= 7)%nat.
Proof. exact (page_row_facts currentPage totalPages). Qed.

(** X2. The current page has a button of its own exactly when it lies
    between 1 and the last page. *)
Theorem current_page_button_iff_in_range (currentPage totalPages : Z) :
  In (Page currentPage) (generatePageNumbers currentPage totalPages)
  <-> 1 <= currentPage <= totalPages.
Proof.
  destruct (generatePageNumbers_shape currentPage totalPages)
    as [(H & ->)|[(H & Hc & ->)|[(H & Hc & Hd & ->)|(H & Hc & Hd & ->)]]].
  - rewrite in_map_Page. apply in_upto.
  - cbn [In]. split.
    + intros [E|[E|[E|[E|[E|[E|[ ]]]]]]]; try discriminate; inversion E; lia.
    + intros R.
      assert (C : currentPage = 1 \/ currentPage = 2 \/ currentPage = 3) by lia.
      destruct C as [-> | [-> | ->]]; tauto.
  - cbn [In]. split.
    + intros [E|[E|[E|[E|[E|[E|[ ]]]]]]]; try discriminate; inversion E; lia.
    + intros R.
      assert (C : currentPage = totalPages - 2 \/ currentPage = totalPages - 1
                  \/ currentPage = totalPages) by lia.
      destruct C as [-> | [-> | ->]]; tauto.
  - cbn [In]. split; [intros _; lia | tauto].
Qed.

(** What [rowMarked] refuses: a row that begins with an ellipsis or with
    another page than 1, an ellipsis at the end, doubled, or between two
    neighbours, and a skipped page without an ellipsis. *)
Lemma rowMarked_refuses :
  Pagination.rowMarked [ellipsis; Page 5; Page 6] = false /\
  Pagination.rowMarked [ellipsis; Page 2] = false /\
  Pagination.rowMarked [Page 2; Page 3] = false /\
  Pagination.rowMarked [Page 1; ellipsis] = false /\
  Pagination.rowMarked [Page 1; ellipsis; ellipsis; Page 4] = false /\
  Pagination.rowMarked [Page 1; ellipsis; Page 2] = false /\
  Pagination.rowMarked [Page 1; Page 3] = false.
Proof. repeat split. Qed.

(** X3. An ellipsis marks exactly the gaps. The row is empty exactly
    when there is no page (totalPages below 1); otherwise its first item
    is the button of page 1, never an ellipsis. Reading on from there, a
    button that directly follows another carries the next page number,
    and an ellipsis always stands between two buttons whose numbers are
    not neighbours (never last, never doubled). *)
Theorem ellipsis_marks_exactly_the_gaps (currentPage totalPages : Z) :
  Pagination.rowMarked (generatePageNumbers currentPage totalPages) = true /\
  match generatePageNumbers currentPage totalPages with
  | [] => totalPages <= 0
  | first :: _ => first = Page 1 /\ 1 <= totalPages
  end.
Proof.
  assert (T : forall a b, a = b -> (a =? b) = true) by (intros; now apply Z.eqb_eq).
  assert (L : forall a b, a < b -> (a <? b) = true) by (intros; now apply Z.ltb_lt).
  destruct (generatePageNumbers_shape currentPage totalPages)
    as [(H & ->)|[(H & Hc & ->)|[(H & Hc & Hd & ->)|(H & Hc & Hd & ->)]]].
  - destruct (upto_small totalPages H)
      as [(-> & E)|[(-> & E)|[(-> & E)|[(-> & E)|[(-> & E)|(-> & E)]]]]];
      cbn [map]; (split; [reflexivity|]); try exact E; split; (reflexivity || lia).
  - cbn [Pagination.rowMarked Pagination.gapsMarked].
    rewrite !T, L by lia. split; [reflexivity|]. split; [reflexivity | lia].
  - cbn [Pagination.rowMarked Pagination.gapsMarked].
    rewrite !T, L by lia. split; [reflexivity|]. split; [reflexivity | lia].
  - cbn [Pagination.rowMarked Pagination.gapsMarked].
    rewrite !T, !L by lia. split; [reflexivity|]. split; [reflexivity | lia].
Qed.

(** X4. Let the current page lie between 1 and the last page, with a
    previous page flagged only after page 1 and a next page only before
    the last. Then a click in the pagination bar either is impossible
    (bar not rendered, control absent or disabled) and changes nothing,
    or it sends at once the browse request for its page, which lies
    between 1 and the last page, under the filters in force. *)
Theorem pagination_click_stays_in_range (w : Runtime) (target : Z) :
  1 <= currentPage (view w) <= totalPages (view w) ->
  (hasPrevious (view w) = true -> 1 < currentPage (view w)) ->
  (hasNext (view w) = true -> currentPage (view w) < totalPages (view w)) ->
  paginationClick target w = w \/
  (1 <= target <= totalPages (view w) /\
   fetches (paginationClick target w)
   = fetches w ++ [(clock w, browseRequest target (skillFilter (view w))
                                           (locationFilter (view w)))]).
Proof.
  intros Hcur Hprev Hnext. unfold paginationClick.
  destruct (paginationShown (view w)) eqn:Hshown; [|now left].
  destruct (existsb _ _) eqn:Hin; [right | now left]. cbn [andb].
  apply existsb_exists in Hin. destruct Hin as (x & Hx & E).
  apply Z.eqb_eq in E. subst x. split.
  - unfold Pagination.clickTargets in Hx. cbn [paginationProps
      Pagination.totalPages Pagination.currentPage Pagination.hasNext
      Pagination.hasPrevious] in Hx.
    destruct (totalPages (view w) <=? 1); [contradiction|].
    apply in_app_or in Hx. destruct Hx as [Hx|Hx].
    + destruct (hasPrevious (view w)); [|contradiction].
      destruct Hx as [<-|[ ]]. specialize (Hprev eq_refl). lia.
    + apply in_app_or in Hx. destruct Hx as [Hx|Hx].
      * destruct (page_row_facts (currentPage (view w)) (totalPages (view w)))
          as (_ & Hrange & _).
        rewrite Forall_forall in Hrange. now apply Hrange.
      * destruct (hasNext (view w)); [|contradiction].
        destruct Hx as [<-|[ ]]. specialize (Hnext eq_refl). lia.
  - unfold paginationShown in Hshown.
    apply andb_true_iff in Hshown. destruct Hshown as [_ Hshown].
    apply andb_true_iff in Hshown. destruct Hshown as [Hq _].
    unfold handlePageChange. rewrite Hq. reflexivity.
Qed.

(** Page 1 of 3 is on screen: the Next button asks for page 2. *)
Lemma pagination_click_stays_in_range_witness :
  paginationClick 2 landed = landed \/
  (1 <= 2 <= totalPages (view landed) /\
   fetches (paginationClick 2 landed)
   = fetches landed ++ [(clock landed, browseRequest 2 (skillFilter (view landed))
                                                  (locationFilter (view landed)))]).
Proof.
  apply (pagination_click_stays_in_range landed 2).
  - vm_compute. split; discriminate.
  - vm_compute. discriminate.
  - vm_compute. reflexivity.
Defined.

(** ** Loading flags and requests in flight *)

Section InFlight.

Lemma filter_absent (id : nat) (l : list (nat * Request)) :
  ~ In id (map fst l) ->
  filter (fun e => negb (Nat.eqb (fst e) id)) l = l.
Proof.
  induction l as [|[k r] l IH]; [reflexivity|].
  cbn [map fst In filter]. intros H.
  destruct (Nat.eqb_spec k id) as [E|E]; [tauto|].
  cbn [negb]. rewrite IH by tauto. reflexivity.
Qed.

(** Settling a request of one kind keeps every request of the other kind
    pending. *)
Lemma settle_keeps_other_kind (other : Request -> bool) (id : nat)
    (r : Request) (l : list (nat * Request)) :
  NoDup (map fst l) ->
  lookup id l = Some r ->
  other r = false ->
  existsb (fun e => other (snd e)) (filter (fun e => negb (Nat.eqb (fst e) id)) l)
  = existsb (fun e => other (snd e)) l.
Proof.
  intros Hnd Hl Hr. induction l as [|[k r'] l IH]; [discriminate|].
  cbn [map fst] in Hnd. inversion Hnd as [|x xs Hnotin Hnd']; subst.
  cbn [lookup] in Hl. cbn [filter fst].
  destruct (Nat.eqb_spec k id) as [E|E].
  - inversion Hl; subst. cbn [negb existsb snd]. rewrite Hr.
    now rewrite filter_absent.
  - cbn [negb existsb snd]. now rewrite IH.
Qed.

Lemma lookup_snoc_fresh (id : nat) (req : Request) (l : list (nat * Request)) :
  Forall (fun e => (fst e < id)%nat) l ->
  lookup id (l ++ [(id, req)]) = Some req.
Proof.
  induction l as [|[k r] l IH]; intros H.
  - cbn. now rewrite Nat.eqb_refl.
  - inversion H as [|x xs Hk Hl]; subst. cbn [fst] in Hk.
    cbn [app lookup]. destruct (Nat.eqb_spec k id); [lia | now apply IH].
Qed.

Lemma idsFresh_issue (req : Request) (w : Runtime) :
  idsFresh w -> idsFresh (issue req w).
Proof.
  intros [Hnd Hlt]. split; cbn [pending nextId issue].
  - rewrite map_app. cbn [map fst].
    apply NoDup_app; [exact Hnd | repeat constructor; now intros [ ] |].
    intros id Hin [<-|[ ]].
    rewrite in_map_iff in Hin. destruct Hin as (e & E & He).
    rewrite Forall_forall in Hlt. specialize (Hlt e He). lia.
  - apply Forall_app. split.
    + eapply Forall_impl; [|exact Hlt]. cbn. intros e He. lia.
    + constructor; [cbn; lia | constructor].
Qed.

Lemma idsFresh_settle (id : nat) (w : Runtime) :
  idsFresh w -> idsFresh (settle id w).
Proof.
  intros [Hnd Hlt]. split; cbn [pending nextId settle].
  - clear Hlt. induction (pending w) as [|[k r] l IH]; [constructor|].
    cbn [map fst] in Hnd. inversion Hnd as [|x xs Hnotin Hnd']; subst.
    cbn [filter fst]. destruct (negb (Nat.eqb k id)); [|now apply IH].
    cbn [map fst]. constructor; [|now apply IH].
    intros Hin. apply Hnotin.
    rewrite in_map_iff in Hin |- *. destruct Hin as (e & E & He).
    apply filter_In in He. exists e. tauto.
  - rewrite Forall_forall in Hlt |- *. intros e He.
    apply filter_In in He. now apply Hlt.
Qed.

Lemma existsb_snoc {A : Type} (f : A -> bool) (l : list A) (x : A) :
  existsb f (l ++ [x]) = existsb f l || f x.
Proof. rewrite existsb_app. cbn. now rewrite orb_false_r. Qed.

Lemma inFlight_browseUsers (r : State) (page : option Z)
    (skill location : option string) (w : Runtime) :
  idsFresh w ->
  (searchLoading (view w) = true -> searchPending w = true) ->
  inFlightInvariant (browseUsers r page skill location w).
Proof.
  intros Hids Hs. split.
  - apply (idsFresh_issue _ (setState (setLoading true) w)). exact Hids.
  - split; intros H.
    + unfold browsePending, browseUsers. cbn [pending issue setState].
      rewrite existsb_snoc. cbn [snd isBrowse isSearch]. apply orb_true_r.
    + unfold searchPending, browseUsers. cbn [pending issue setState].
      rewrite existsb_snoc. cbn [snd isBrowse isSearch]. rewrite orb_false_r. now apply Hs.
Qed.

Lemma inFlight_searchUsers (r : State) (query : string) (w : Runtime) :
  idsFresh w -> flagsBacked w ->
  inFlightInvariant (searchUsers r query w).
Proof.
  intros Hids [Hb Hs]. unfold searchUsers.
  destruct (negb (JS.truthy (JS.trim query))).
  - now apply inFlight_browseUsers.
  - split.
    + apply (idsFresh_issue _ (setState (setSearchLoading true) w)). exact Hids.
    + split; intros H.
      * unfold browsePending. cbn [pending issue setState].
        rewrite existsb_snoc. cbn [snd isBrowse isSearch]. rewrite orb_false_r. now apply Hb.
      * unfold searchPending. cbn [pending issue setState].
        rewrite existsb_snoc. cbn [snd isBrowse isSearch]. apply orb_true_r.
Qed.

Lemma inFlight_same (w w' : Runtime) :
  pending w' = pending w ->
  nextId w' = nextId w ->
  loading (view w') = loading (view w) ->
  searchLoading (view w') = searchLoading (view w) ->
  inFlightInvariant w -> inFlightInvariant w'.
Proof.
  unfold inFlightInvariant, idsFresh, flagsBacked, browsePending, searchPending.
  intros -> -> -> ->. tauto.
Qed.

Lemma inFlight_step (e : Event) (w : Runtime) :
  inFlightInvariant w -> inFlightInvariant (step e w).
Proof.
  intros Hinv. pose proof Hinv as [Hids [Hb Hs]]. destruct e; cbn [step].
  - unfold changeQuery. destruct (String.eqb _ _); [exact Hinv|].
    now apply (inFlight_same w).
  - unfold handlePageChange. destruct (negb _).
    + now apply inFlight_browseUsers.
    + exact Hinv.
  - now apply inFlight_browseUsers.
  - unfold handlePopularSkillClick.
    apply (inFlight_same
             (browseUsers (view w) (Some 1) (Some skillName)
                (Some (locationFilter (view w)))
                (setState (setCurrentPage 1)
                   (setState (setSkillFilter skillName) w))));
      try reflexivity.
    now apply inFlight_browseUsers.
  - now apply inFlight_browseUsers.
  - now apply inFlight_browseUsers.
  - unfold elapse. destruct (timer w) as [t|]; [|now apply (inFlight_same w)].
    destruct (deadline t <=? clock w + dt)%nat; [|now apply (inFlight_same w)].
    apply (inFlight_same
             (searchUsers (closure t) (searchQuery (closure t))
                (setTimer None (setClock (Nat.max (clock w) (deadline t)) w))));
      try reflexivity.
    apply inFlight_searchUsers; [exact Hids | now split].
  - unfold browseDone. destruct (lookup id (pending w)) as [[p|p]|] eqn:El;
      try exact Hinv.
    assert (Hids' : idsFresh (settle id w)) by now apply idsFresh_settle.
    assert (Hs' : searchLoading (view w) = true ->
                  searchPending (settle id w) = true).
    { intros H. unfold searchPending. cbn [pending settle].
      rewrite (settle_keeps_other_kind isSearch id (browse_users p));
        [now apply Hs | apply Hids | exact El | reflexivity]. }
    destruct outcome; (split; [exact Hids' | split; [discriminate | exact Hs']]).
  - unfold searchDone. destruct (lookup id (pending w)) as [[p|p]|] eqn:El;
      try exact Hinv.
    assert (Hids' : idsFresh (settle id w)) by now apply idsFresh_settle.
    assert (Hb' : loading (view w) = true ->
                  browsePending (settle id w) = true).
    { intros H. unfold browsePending. cbn [pending settle].
      rewrite (settle_keeps_other_kind isBrowse id (search_users p));
        [now apply Hb | apply Hids | exact El | reflexivity]. }
    destruct outcome; (split; [exact Hids' | split; [exact Hb' | discriminate]]).
Qed.

Lemma reachable_inFlight (w : Runtime) : reachable w -> inFlightInvariant w.
Proof.
  induction 1 as [|e w Hw IH]; [|now apply inFlight_step].
  split; [split|split].
  - cbn. repeat constructor. now intros [ ].
  - cbn. repeat constructor.
  - reflexivity.
  - discriminate.
Qed.

End InFlight.

(** X5. No loading flag hangs: in every reachable state the skeleton
    ([loading]) is up only while some browse request is pending, and the
    search spinner ([searchLoading]) only while some search request is
    pending. *)
Theorem loading_flags_are_backed (w : Runtime) :
  reachable w ->
  (loading (view w) = true -> browsePending w = true) /\
  (searchLoading (view w) = true -> searchPending w = true).
Proof. intros Hw. exact (proj2 (reachable_inFlight w Hw)). Qed.

Lemma loading_flags_are_backed_witness :
  (loading (view (mount boot)) = true -> browsePending (mount boot) = true) /\
  (searchLoading (view (mount boot)) = true -> searchPending (mount boot) = true).
Proof. exact (loading_flags_are_backed (mount boot) reachable_mount). Defined.

(** X6. A freshly mounted page asks for the first page twice: once at
    mount (the initial load) and once more 300 ms later, when the
    debounce effect armed at mount runs on the empty query; the answers
    that arrive in between change nothing of that. *)
Theorem mount_fetches_first_page_twice (answers : list Event) (dt : nat) :
  forallb isSettling answers = true ->
  (300 <= dt)%nat ->
  fetches (run (answers ++ [Elapse dt]) (mount boot))
  = [(0%nat, browseRequest 1 "" ""); (300%nat, browseRequest 1 "" "")].
Proof.
  intros Hans Hdt. rewrite run_app. cbn [run fold_left step].
  fold (run answers (mount boot)).
  destruct (settling_run answers (mount boot) Hans) as (_ & Ht & Hc & Hf).
  destruct (elapse_fires (run answers (mount boot))
              {| deadline := 300; closure := initialState |} dt) as (Hfire & _).
  - exact Ht.
  - rewrite Hc. cbn. lia.
  - rewrite Hfire, Hf, Hc. reflexivity.
Qed.

Lemma mount_fetches_first_page_twice_witness :
  fetches (run ([BrowseDone 0 (Some firstPage)] ++ [Elapse 300]) (mount boot))
  = [(0%nat, browseRequest 1 "" ""); (300%nat, browseRequest 1 "" "")].
Proof.
  apply (mount_fetches_first_page_twice [BrowseDone 0 (Some firstPage)] 300).
  - reflexivity.
  - lia.
Defined.

(** X7. The debounce callback keeps the filters of the render in which
    the query changed. When the query is changed to a blank text and the
    filters are changed before the 300 ms are over, the filter change
    sends its request at once with the new filters, and the debounced
    request that follows still carries the old ones, although the filter
    state holds the new ones. *)
Theorem debounced_browse_uses_filters_of_its_render
    (w : Runtime) (text skill location : string) (dt : nat) :
  text <> searchQuery (view w) ->
  JS.blank text = true ->
  (300 <= dt)%nat ->
  let w' := run [ChangeQuery text; FilterChange (Some skill) (Some location);
                 Elapse dt] w in
  fetches w'
  = fetches w ++ [(clock w, browseRequest 1 skill location);
                  ((clock w + 300)%nat,
                   browseRequest 1 (skillFilter (view w)) (locationFilter (view w)))] /\
  skillFilter (view w') = skill /\
  locationFilter (view w') = location.
Proof.
  intros Hne Hblank Hdt w'.
  destruct (changeQuery_arms text w Hne) as (Ha & Hq & Hs & Hl & Hc & Hf).
  set (w1 := changeQuery text w) in *.
  set (w2 := handleFilterChange (Some skill) (Some location) w1).
  assert (Ht2 : timer w2 = Some {| deadline := (clock w + 300)%nat;
                                   closure := view w1 |}).
  { unfold w2. cbn [timer handleFilterChange browseUsers issue setState].
    unfold armed in Ha. now rewrite Ha, Hc. }
  destruct (elapse_fires w2 _ dt Ht2) as (Hfire & _ & _ & (_ & Hs3 & Hl3)).
  { cbn [deadline]. change (clock w2) with (clock w1). lia. }
  change w' with (elapse dt w2). split.
  - rewrite Hfire. cbn [deadline closure].
    change (fetches w2) with (fetches w1 ++ [(clock w1, browseRequest 1 skill location)]).
    change (clock w2) with (clock w1). rewrite Hf, Hc, Hq, <- app_assoc.
    replace (Nat.max (clock w) (clock w + 300)) with (clock w + 300)%nat by lia.
    unfold debounced. apply trim_empty in Hblank. rewrite Hblank.
    cbn [JS.truthy app]. now rewrite Hs, Hl.
  - now rewrite Hs3, Hl3.
Qed.

(** The query "a" is cleared and, 100 ms later in effect, Design is
    applied as the skill filter. *)
Lemma debounced_browse_uses_filters_of_its_render_witness :
  let w := run [ChangeQuery "a"] landed in
  let w' := run [ChangeQuery ""; FilterChange (Some "Design") (Some ""); Elapse 300] w in
  fetches w'
  = fetches w ++ [(clock w, browseRequest 1 "Design" "");
                  ((clock w + 300)%nat,
                   browseRequest 1 (skillFilter (view w)) (locationFilter (view w)))] /\
  skillFilter (view w') = "Design" /\
  locationFilter (view w') = "".
Proof.
  intros w.
  apply (debounced_browse_uses_filters_of_its_render w "" "Design" "" 300).
  - vm_compute. discriminate.
  - reflexivity.
  - lia.
Defined.

(** X8. The skeleton is driven by one boolean, not by a count: when two
    browse requests are pending and one of them settles, with an answer
    or with a failure, [loading] goes off and the list is shown again
    although the other request is still pending. *)
Theorem loading_goes_off_at_first_settlement
    (w : Runtime) (a b : nat) (pa pb : BrowseUsersParams.t)
    (outcome : option BrowseUsersResponse.t) :
  a <> b ->
  lookup a (pending w) = Some (browse_users pa) ->
  lookup b (pending w) = Some (browse_users pb) ->
  let w' := step (BrowseDone a outcome) w in
  loading (view w') = false /\
  usersShown (view w') = true /\
  lookup b (pending w') = Some (browse_users pb) /\
  browsePending w' = true.
Proof.
  intros Hab Ha Hb w'. unfold w'. cbn [step].
  assert (Hb' : lookup b (pending (browseDone a outcome w)) = Some (browse_users pb)).
  { rewrite lookup_after_browseDone by congruence. exact Hb. }
  assert (Hl : loading (view (browseDone a outcome w)) = false).
  { unfold browseDone. rewrite Ha. now destruct outcome. }
  split; [exact Hl|]. split; [unfold usersShown; now rewrite Hl|].
  split; [exact Hb'|].
  unfold browsePending. apply existsb_exists.
  exists (b, browse_users pb). split; [|reflexivity].
  clear -Hb'. induction (pending (browseDone a outcome w)) as [|[k r] l IH];
    [discriminate|].
  cbn [lookup] in Hb'. destruct (Nat.eqb_spec k b) as [E|E].
  - inversion Hb'; subst. now left.
  - right. now apply IH.
Qed.

(** The initial listing (request 0) and the first-page request the
    debounce effect sends 300 ms after mount (request 1) are both
    pending; the answer to the initial listing arrives. *)
Lemma loading_goes_off_at_first_settlement_witness :
  let w := run [Elapse 300] (mount boot) in
  let w' := step (BrowseDone 0 (Some firstPage)) w in
  loading (view w') = false /\
  usersShown (view w') = true /\
  lookup 1 (pending w')
  = Some (browse_users {| BrowseUsersParams.page := 1;
                          BrowseUsersParams.page_size := 12;
                          BrowseUsersParams.skill_filter := None;
                          BrowseUsersParams.location_filter := None |}) /\
  browsePending w' = true.
Proof.
  intros w.
  assert (Hab : 0%nat <> 1%nat) by discriminate.
  assert (Ha : lookup 0 (pending w)
               = Some (browse_users {| BrowseUsersParams.page := 1;
                                       BrowseUsersParams.page_size := 12;
                                       BrowseUsersParams.skill_filter := None;
                                       BrowseUsersParams.location_filter := None |}))
    by (vm_compute; reflexivity).
  assert (Hb : lookup 1 (pending w)
               = Some (browse_users {| BrowseUsersParams.page := 1;
                                       BrowseUsersParams.page_size := 12;
                                       BrowseUsersParams.skill_filter := None;
                                       BrowseUsersParams.location_filter := None |}))
    by (vm_compute; reflexivity).
  exact (loading_goes_off_at_first_settlement w 0 1 _ _ (Some firstPage) Hab Ha Hb).
Defined.

(** X9. A filter change marks page 1 before its request is answered. If
    that request fails, the list, the page count and the next/previous
    flags are still those of the page shown before, under the new filter
    badges and with page 1 marked as current; and when that old page had
    a previous page (empty query, more than one page), the Previous
    button is enabled and its click asks for page 0. *)
Theorem failed_filter_change_marks_page_one
    (w : Runtime) (skill location : string) :
  reachable w ->
  let w' := run [FilterChange (Some skill) (Some location);
                 BrowseDone (nextId w) None] w in
  users (view w') = users (view w) /\
  totalPages (view w') = totalPages (view w) /\
  totalCount (view w') = totalCount (view w) /\
  hasNext (view w') = hasNext (view w) /\
  hasPrevious (view w') = hasPrevious (view w) /\
  currentPage (view w') = 1 /\
  skillFilter (view w') = skill /\
  locationFilter (view w') = location /\
  loading (view w') = false /\
  (searchQuery (view w) = "" ->
   1 < totalPages (view w) ->
   hasPrevious (view w) = true ->
   fetches (paginationClick 0 w')
   = fetches w' ++ [(clock w, browseRequest 0 skill location)]).
Proof.
  intros Hw w'.
  destruct (reachable_inFlight w Hw) as [[_ Hlt] _].
  set (w1 := handleFilterChange (Some skill) (Some location) w).
  assert (Hl : lookup (nextId w) (pending w1)
               = Some (browseRequest 1 skill location)).
  { unfold w1. cbn [pending handleFilterChange browseUsers issue setState nextId].
    now apply lookup_snoc_fresh. }
  assert (E : w' = setState (setLoading false)
                     (toast_error "Failed to load users" (settle (nextId w) w1))).
  { unfold w'. cbn [run fold_left step]. fold w1.
    unfold browseDone. rewrite Hl. reflexivity. }
  rewrite E. clear E w'. repeat (split; [reflexivity|]).
  intros Hq Htp Hprev. unfold paginationClick, paginationShown, handlePageChange.
  cbn [view setState toast_error settle w1 handleFilterChange browseUsers issue
       loading searchQuery totalPages setLoading setCurrentPage
       setLocationFilter setSkillFilter negb andb].
  rewrite Hq. cbn [JS.truthy negb andb].
  replace (1 <? totalPages (view w)) with true by (symmetry; now apply Z.ltb_lt).
  unfold Pagination.clickTargets.
  cbn [paginationProps Pagination.totalPages Pagination.currentPage
       Pagination.hasNext Pagination.hasPrevious view setState toast_error
       settle w1 handleFilterChange browseUsers issue totalPages currentPage
       hasNext hasPrevious setLoading setCurrentPage setLocationFilter
       setSkillFilter].
  replace (totalPages (view w) <=? 1) with false by (symmetry; apply Z.leb_gt; lia).
  rewrite Hprev. cbn [app existsb Z.sub Z.eqb Z.pos_sub Z.add Z.opp orb andb].
  reflexivity.
Qed.

(** Page 2 of 3 is on screen; applying the filter Design fails. *)
Lemma failed_filter_change_marks_page_one_witness :
  let w := run [PageChange 2; BrowseDone 1 (Some secondPage)] landed in
  let w' := run [FilterChange (Some "Design") (Some "");
                 BrowseDone (nextId w) None] w in
  currentPage (view w') = 1 /\
  hasPrevious (view w') = true /\
  fetches (paginationClick 0 w')
  = fetches w' ++ [(clock w, browseRequest 0 "Design" "")].
Proof.
  intros w.
  assert (Hw : reachable w).
  { unfold w, landed. rewrite <- run_app. apply reachable_run, reachable_mount. }
  destruct (failed_filter_change_marks_page_one w "Design" "" Hw)
    as (_ & _ & _ & _ & Hp & Hc & _ & _ & _ & Hclick).
  intros w'. split; [exact Hc|]. split.
  - unfold w'. rewrite Hp. reflexivity.
  - apply Hclick; reflexivity.
Defined.

(** ** The sidebar and the page *)

(** The sidebar's clear action, seen from the page, is the clear action
    the page was verified with. *)
Lemma sidebar_clear_on_host (p : SearchFilters.t) :
  SearchFilters.host (SearchFilters.handleClearFilters p)
  = SearchFilters_handleClearFilters (SearchFilters.host p).
Proof. reflexivity. Qed.

(** X10. Each action of the sidebar (Apply, Clear, a quick skill button)
    sends the browse request for page 1 under exactly the texts its two
    inputs show afterwards, and leaves the inputs equal to the filters in
    force, so that the Apply button is disabled; removing a filter by its
    badge keeps the inputs equal to the filters once they were. *)
Theorem sidebar_actions_keep_inputs_in_sync (p : SearchFilters.t) :
  (forall q,
      q = SearchFilters.handleApplyFilters p \/
      q = SearchFilters.handleClearFilters p \/
      (exists skillName, q = SearchFilters.handlePopularSkillClick skillName p) ->
      SearchFilters.inSync q /\
      SearchFilters.applyDisabled q = true /\
      fetches (SearchFilters.host q)
      = fetches (SearchFilters.host p)
        ++ [(clock (SearchFilters.host p),
             browseRequest 1 (SearchFilters.localSkillFilter q)
                             (SearchFilters.localLocationFilter q))]) /\
  (SearchFilters.inSync p ->
   SearchFilters.inSync (SearchFilters.removeSkillBadge p) /\
   SearchFilters.inSync (SearchFilters.removeLocationBadge p) /\
   locationFilter (view (SearchFilters.host (SearchFilters.removeSkillBadge p)))
   = locationFilter (view (SearchFilters.host p)) /\
   skillFilter (view (SearchFilters.host (SearchFilters.removeLocationBadge p)))
   = skillFilter (view (SearchFilters.host p))).
Proof.
  split.
  - intros q [-> | [-> | (skillName & ->)]];
      (split; [now split|]); (split; [|reflexivity]);
      unfold SearchFilters.applyDisabled;
      cbn [SearchFilters.handleApplyFilters SearchFilters.handleClearFilters
           SearchFilters.handlePopularSkillClick SearchFilters.host
           SearchFilters.localSkillFilter SearchFilters.localLocationFilter
           handleFilterChange browseUsers issue setState view skillFilter
           locationFilter setLoading setCurrentPage setLocationFilter
           setSkillFilter JS.orEmpty];
      now rewrite !String.eqb_refl.
  - intros [Hs Hl]. repeat split; cbn; assumption.
Qed.

(** Design and Berlin are typed into the sidebar and applied, and the
    listing arrives: both badges are on screen. The skill badge is
    clicked. *)
Lemma sidebar_actions_keep_inputs_in_sync_witness :
  let typed := SearchFilters.setLocalLocationFilter "Berlin"
                 (SearchFilters.setLocalSkillFilter "Design"
                    (SearchFilters.mountIn landed)) in
  let applied := SearchFilters.hostStep (BrowseDone 1 (Some designPage))
                   (SearchFilters.handleApplyFilters typed) in
  (SearchFilters.inSync (SearchFilters.handleApplyFilters typed) /\
   SearchFilters.applyDisabled (SearchFilters.handleApplyFilters typed) = true /\
   fetches (SearchFilters.host (SearchFilters.handleApplyFilters typed))
   = fetches landed ++ [(0%nat, browseRequest 1 "Design" "Berlin")]) /\
  (skillFilter (view (SearchFilters.host applied)) = "Design" /\
   locationFilter (view (SearchFilters.host applied)) = "Berlin" /\
   SearchFilters.inSync (SearchFilters.removeSkillBadge applied) /\
   skillFilter (view (SearchFilters.host (SearchFilters.removeSkillBadge applied))) = "" /\
   SearchFilters.localSkillFilter (SearchFilters.removeSkillBadge applied) = "" /\
   locationFilter (view (SearchFilters.host (SearchFilters.removeSkillBadge applied)))
   = "Berlin").
Proof.
  intros typed applied. split.
  - destruct (sidebar_actions_keep_inputs_in_sync typed) as [Haction _].
    destruct (Haction (SearchFilters.handleApplyFilters typed)) as (H1 & H2 & H3).
    + left. reflexivity.
    + split; [exact H1|]. split; [exact H2|]. rewrite H3.
      vm_compute. reflexivity.
  - destruct (sidebar_actions_keep_inputs_in_sync applied) as [_ Hbadge].
    assert (Hsync : SearchFilters.inSync applied)
      by (split; vm_compute; reflexivity).
    destruct (Hbadge Hsync) as (H1 & _ & H3 & _).
    split; [vm_compute; reflexivity|]. split; [vm_compute; reflexivity|].
    split; [exact H1|].
    split; [vm_compute; reflexivity|]. split; [vm_compute; reflexivity|].
    rewrite H3. vm_compute. reflexivity.
Defined.

(** X11. The sidebar does not follow filter changes made outside it.
    After the page's popular-skill chip sets another skill, or the
    header's Clear Filters button empties the filters, the inputs still
    show the old texts, the Apply button is enabled whenever those differ
    from the new filters, and pressing it puts the old filters back. *)
Theorem sidebar_inputs_ignore_outside_changes (p : SearchFilters.t) :
  SearchFilters.inSync p ->
  (forall skillName,
      skillName <> SearchFilters.localSkillFilter p ->
      let q := SearchFilters.hostStep (PopularSkillClick skillName) p in
      skillFilter (view (SearchFilters.host q)) = skillName /\
      SearchFilters.localSkillFilter q = SearchFilters.localSkillFilter p /\
      SearchFilters.applyDisabled q = false /\
      skillFilter (view (SearchFilters.host (SearchFilters.handleApplyFilters q)))
      = skillFilter (view (SearchFilters.host p))) /\
  (clearFiltersShown (view (SearchFilters.host p)) = true ->
   let q := SearchFilters.hostStep ClearFiltersClick p in
   skillFilter (view (SearchFilters.host q)) = "" /\
   locationFilter (view (SearchFilters.host q)) = "" /\
   SearchFilters.localSkillFilter q = skillFilter (view (SearchFilters.host p)) /\
   SearchFilters.localLocationFilter q = locationFilter (view (SearchFilters.host p)) /\
   SearchFilters.applyDisabled q = false /\
   skillFilter (view (SearchFilters.host (SearchFilters.handleApplyFilters q)))
   = skillFilter (view (SearchFilters.host p)) /\
   locationFilter (view (SearchFilters.host (SearchFilters.handleApplyFilters q)))
   = locationFilter (view (SearchFilters.host p))).
Proof.
  intros [Hs Hl]. split.
  - intros skillName Hne q.
    split; [reflexivity|]. split; [reflexivity|]. split; [|exact Hs].
    unfold SearchFilters.applyDisabled.
    cbn [q SearchFilters.hostStep SearchFilters.host SearchFilters.localSkillFilter
         SearchFilters.localLocationFilter step handlePopularSkillClick browseUsers
         issue setState view skillFilter locationFilter setLoading setCurrentPage
         setShowFilters setSkillFilter].
    destruct (String.eqb_spec (SearchFilters.localSkillFilter p) skillName);
      [congruence | reflexivity].
  - intros Hshown q.
    split; [reflexivity|]. split; [reflexivity|].
    split; [exact Hs|]. split; [exact Hl|]. split; [|split; assumption].
    unfold SearchFilters.applyDisabled.
    cbn [q SearchFilters.hostStep SearchFilters.host SearchFilters.localSkillFilter
         SearchFilters.localLocationFilter step clearFiltersClick browseUsers
         issue setState view skillFilter locationFilter setLoading setCurrentPage
         setLocationFilter setSkillFilter].
    rewrite Hs, Hl. unfold clearFiltersShown in Hshown.
    destruct (skillFilter (view (SearchFilters.host p)));
      destruct (locationFilter (view (SearchFilters.host p)));
      try discriminate; reflexivity.
Qed.

(** The sidebar shows Design, the filter in force; the chip React is
    clicked on the page. *)
Lemma sidebar_inputs_ignore_outside_changes_witness :
  let p := SearchFilters.handlePopularSkillClick "Design" (SearchFilters.mountIn landed) in
  let q := SearchFilters.hostStep (PopularSkillClick "React") p in
  skillFilter (view (SearchFilters.host q)) = "React" /\
  SearchFilters.localSkillFilter q = SearchFilters.localSkillFilter p /\
  SearchFilters.applyDisabled q = false /\
  skillFilter (view (SearchFilters.host (SearchFilters.handleApplyFilters q)))
  = skillFilter (view (SearchFilters.host p)).
Proof.
  intros p.
  assert (Hsync : SearchFilters.inSync p) by (split; reflexivity).
  destruct (sidebar_inputs_ignore_outside_changes p Hsync) as [Hchip _].
  apply (Hchip "React"). discriminate.
Defined.

(** ** Availability slots *)

Section Availability.

Import AvailabilitySelector.

Lemma includes_In (l : list string) (x : string) :
  includes l x = true <-> In x l.
Proof.
  unfold includes. rewrite existsb_exists. split.
  - intros (y & Hy & E). apply String.eqb_eq in E. now subst.
  - intros H. exists x. split; [exact H | apply String.eqb_refl].
Qed.

Lemma includes_false (l : list string) (x : string) :
  includes l x = false <-> ~ In x l.
Proof.
  rewrite <- includes_In. destruct (includes l x); split; congruence.
Qed.

Lemma In_without (l : list string) (id x : string) :
  In x (filter (fun y => negb (String.eqb y id)) l) <-> In x l /\ x <> id.
Proof.
  rewrite filter_In. split; intros [H1 H2]; split; try exact H1.
  - intros ->. now rewrite String.eqb_refl in H2.
  - destruct (String.eqb_spec x id); [contradiction | reflexivity].
Qed.

Lemma without_absent (l : list string) (id : string) :
  ~ In id l -> filter (fun y => negb (String.eqb y id)) l = l.
Proof.
  induction l as [|x l IH]; [reflexivity|].
  cbn [In filter]. intros H.
  destruct (String.eqb_spec x id); [tauto|].
  cbn [negb]. rewrite IH by tauto. reflexivity.
Qed.

Lemma In_handleToggle (sel : list string) (id x : string) :
  In x (handleToggle sel id) <->
  (x = id /\ ~ In id sel) \/ (x <> id /\ In x sel).
Proof.
  unfold handleToggle. destruct (includes sel id) eqn:E.
  - apply includes_In in E. rewrite In_without. split.
    + intros [H1 H2]. now right.
    + intros [[-> H]|[H1 H2]]; [contradiction | now split].
  - apply includes_false in E. rewrite in_app_iff. cbn [In]. split.
    + intros [H|[<-|[ ]]].
      * right. split; [|exact H]. intros ->. contradiction.
      * now left.
    + intros [[-> _]|[_ H]]; [right; now left | now left].
Qed.

Lemma NoDup_handleToggle (sel : list string) (id : string) :
  NoDup sel -> NoDup (handleToggle sel id).
Proof.
  intros Hnd. unfold handleToggle. destruct (includes sel id) eqn:E.
  - now apply NoDup_filter.
  - apply includes_false in E. apply NoDup_app; [exact Hnd | | ].
    + repeat constructor. now intros [ ].
    + intros x Hx [<-|[ ]]. contradiction.
Qed.

Lemma length_without (l : list string) (id : string) :
  NoDup l -> In id l ->
  S (List.length (filter (fun y => negb (String.eqb y id)) l)) = List.length l.
Proof.
  induction l as [|x l IH]; intros Hnd Hin; [contradiction|].
  inversion Hnd as [|y ys Hx Hl]; subst. cbn [filter List.length].
  destruct (String.eqb_spec x id) as [->|Hne].
  - cbn [negb]. now rewrite without_absent.
  - cbn [negb List.length]. destruct Hin as [->|Hin]; [contradiction|].
    now rewrite IH.
Qed.

End Availability.

(** X12. A toggle flips the slot it names and no other: afterwards the
    slot is selected exactly when it was not before, and every other slot
    is selected exactly when it was before. *)
Theorem toggle_flips_one_slot (selected : list string) (optionId x : string) :
  AvailabilitySelector.includes
    (AvailabilitySelector.handleToggle selected optionId) x
  = if String.eqb x optionId
    then negb (AvailabilitySelector.includes selected optionId)
    else AvailabilitySelector.includes selected x.
Proof.
  destruct (String.eqb_spec x optionId) as [->|Hne].
  - destruct (AvailabilitySelector.includes selected optionId) eqn:E.
    + apply includes_false. rewrite In_handleToggle.
      apply includes_In in E. tauto.
    + apply includes_In. rewrite In_handleToggle.
      apply includes_false in E. tauto.
  - destruct (AvailabilitySelector.includes selected x) eqn:E.
    + apply includes_In. rewrite In_handleToggle.
      apply includes_In in E. tauto.
    + apply includes_false. rewrite In_handleToggle.
      apply includes_false in E. tauto.
Qed.

(** X13. On a selection without repeats a toggle changes the count shown
    under the cards by exactly one: one more when the slot was not
    selected, one less when it was; and the new selection is again
    without repeats. *)
Theorem toggle_changes_count_by_one (selected : list string) (optionId : string) :
  NoDup selected ->
  NoDup (AvailabilitySelector.handleToggle selected optionId) /\
  (if AvailabilitySelector.includes selected optionId
   then S (List.length (AvailabilitySelector.handleToggle selected optionId))
        = List.length selected
   else List.length (AvailabilitySelector.handleToggle selected optionId)
        = S (List.length selected)).
Proof.
  intros Hnd. split; [now apply NoDup_handleToggle|].
  unfold AvailabilitySelector.handleToggle.
  destruct (AvailabilitySelector.includes selected optionId) eqn:E.
  - apply length_without; [exact Hnd | now apply includes_In].
  - rewrite length_app. cbn. lia.
Qed.

Lemma toggle_changes_count_by_one_witness :
  NoDup (AvailabilitySelector.handleToggle ["flexible"; "weekend_mornings"] "flexible") /\
  S (List.length (AvailabilitySelector.handleToggle ["flexible"; "weekend_mornings"]
                                                    "flexible"))
  = 2%nat.
Proof.
  apply (toggle_changes_count_by_one ["flexible"; "weekend_mornings"] "flexible").
  repeat constructor; cbn; intuition discriminate.
Defined.

(** X14. Toggling the same slot twice on a selection without repeats
    gives back the same set of slots: the very same list when the slot
    was not selected, and otherwise the list with that slot moved to the
    end. *)
Theorem toggle_twice_restores_selection (selected : list string) (optionId : string) :
  NoDup selected ->
  let twice := AvailabilitySelector.handleToggle
                 (AvailabilitySelector.handleToggle selected optionId) optionId in
  Permutation twice selected /\
  (AvailabilitySelector.includes selected optionId = false -> twice = selected) /\
  (AvailabilitySelector.includes selected optionId = true ->
   twice = filter (fun id => negb (String.eqb id optionId)) selected ++ [optionId]).
Proof.
  intros Hnd twice.
  assert (Hnd1 := NoDup_handleToggle selected optionId Hnd).
  assert (Hnd2 := NoDup_handleToggle _ optionId Hnd1). fold twice in Hnd2.
  split; [|split].
  - apply NoDup_Permutation; [exact Hnd2 | exact Hnd |].
    intros x. unfold twice. rewrite !In_handleToggle.
    destruct (String.eqb_spec x optionId) as [->|Hne]; [|tauto].
    destruct (in_dec string_dec optionId selected); tauto.
  - intros E. unfold twice, AvailabilitySelector.handleToggle at 2. rewrite E.
    unfold AvailabilitySelector.handleToggle.
    assert (H : AvailabilitySelector.includes (selected ++ [optionId]) optionId = true).
    { apply includes_In, in_or_app. right. now left. }
    rewrite H, filter_app. cbn [filter]. rewrite String.eqb_refl. cbn [negb].
    rewrite app_nil_r. apply without_absent. now apply includes_false.
  - intros E. unfold twice, AvailabilitySelector.handleToggle at 2. rewrite E.
    unfold AvailabilitySelector.handleToggle.
    assert (H : AvailabilitySelector.includes
                  (filter (fun id => negb (String.eqb id optionId)) selected)
                  optionId = false).
    { apply includes_false. rewrite In_without. tauto. }
    now rewrite H.
Qed.

Lemma toggle_twice_restores_selection_witness :
  let twice := AvailabilitySelector.handleToggle
                 (AvailabilitySelector.handleToggle ["flexible"; "weekend_mornings"]
                                                    "flexible") "flexible" in
  Permutation twice ["flexible"; "weekend_mornings"] /\
  twice = ["weekend_mornings"; "flexible"].
Proof.
  intros twice.
  destruct (toggle_twice_restores_selection ["flexible"; "weekend_mornings"] "flexible")
    as (Hperm & _ & Hmoved).
  - repeat constructor; cbn; intuition discriminate.
  - split; [exact Hperm | now apply Hmoved].
Defined.

(** X15. Clicking cards, in any order and any number of times, on a
    selection of known slots without repeats leaves a selection of known
    slots without repeats, so the count shown never exceeds the seven
    cards. *)
Theorem card_clicks_keep_selection_valid (ids start : list string) :
  NoDup start ->
  incl start AvailabilitySelector.optionIds ->
  let sel := AvailabilitySelector.clicks ids start in
  NoDup sel /\
  incl sel AvailabilitySelector.optionIds /\
  (List.length sel <= 7)%nat.
Proof.
  intros Hnd Hincl sel.
  assert (H : NoDup sel /\ incl sel AvailabilitySelector.optionIds).
  { unfold sel, AvailabilitySelector.clicks. clear sel.
    revert start Hnd Hincl. induction ids as [|id ids IH]; intros start Hnd Hincl.
    - now split.
    - cbn [fold_left]. apply IH.
      + unfold AvailabilitySelector.clickCard.
        destruct (AvailabilitySelector.includes _ id); [|exact Hnd].
        now apply NoDup_handleToggle.
      + unfold AvailabilitySelector.clickCard.
        destruct (AvailabilitySelector.includes AvailabilitySelector.optionIds id)
          eqn:E; [|exact Hincl].
        intros x Hx. apply In_handleToggle in Hx.
        destruct Hx as [[-> _]|[_ Hx]]; [now apply includes_In | now apply Hincl]. }
  destruct H as [H1 H2]. split; [exact H1|]. split; [exact H2|].
  change 7%nat with (List.length AvailabilitySelector.optionIds).
  now apply NoDup_incl_length.
Qed.

Lemma card_clicks_keep_selection_valid_witness :
  let sel := AvailabilitySelector.clicks ["flexible"; "never"; "flexible"; "flexible"] [] in
  NoDup sel /\
  incl sel AvailabilitySelector.optionIds /\
  (List.length sel <= 7)%nat.
Proof.
  apply (card_clicks_keep_selection_valid ["flexible"; "never"; "flexible"; "flexible"] []).
  - constructor.
  - intros x [ ].
Defined.

(** ** The skill selector *)

Section Selector.

Lemma trimEnd_cons (c : ascii) (r : string) :
  JS.trimEnd (String c r)
  = match JS.trimEnd r with
    | EmptyString => if JS.isWhiteSpace c then EmptyString else String c EmptyString
    | kept => String c kept
    end.
Proof. reflexivity. Qed.

Lemma trimEnd_idempotent (s : string) : JS.trimEnd (JS.trimEnd s) = JS.trimEnd s.
Proof.
  induction s as [|c r IH]; [reflexivity|].
  rewrite (trimEnd_cons c r). destruct (JS.trimEnd r) as [|d k] eqn:E.
  - destruct (JS.isWhiteSpace c) eqn:W; [reflexivity|].
    rewrite trimEnd_cons. cbn [JS.trimEnd]. now rewrite W.
  - rewrite trimEnd_cons, IH. reflexivity.
Qed.

Lemma startsClean_trimStart (s : string) : startsClean (JS.trimStart s) = true.
Proof.
  induction s as [|c r IH]; [reflexivity|].
  cbn [JS.trimStart]. destruct (JS.isWhiteSpace c) eqn:W; [exact IH|].
  cbn [startsClean]. now rewrite W.
Qed.

Lemma startsClean_trimEnd (s : string) :
  startsClean s = true -> startsClean (JS.trimEnd s) = true.
Proof.
  destruct s as [|c r]; [reflexivity|]. rewrite trimEnd_cons.
  cbn [startsClean]. intros W.
  destruct (JS.trimEnd r); [|exact W].
  destruct (JS.isWhiteSpace c) eqn:C; [discriminate|].
  cbn [startsClean]. now rewrite C.
Qed.

Lemma trimStart_clean (s : string) : startsClean s = true -> JS.trimStart s = s.
Proof.
  destruct s as [|c r]; [reflexivity|]. cbn [startsClean JS.trimStart].
  now destruct (JS.isWhiteSpace c).
Qed.

(** Trimming a trimmed string changes nothing. *)
Lemma trim_idempotent (s : string) : JS.trim (JS.trim s) = JS.trim s.
Proof.
  unfold JS.trim.
  rewrite (trimStart_clean (JS.trimEnd (JS.trimStart s))).
  - apply trimEnd_idempotent.
  - apply startsClean_trimEnd, startsClean_trimStart.
Qed.

Lemma tempId_injective (a b : N) :
  SkillSelector.tempId a = SkillSelector.tempId b -> a = b.
Proof.
  unfold SkillSelector.tempId. cbn [String.append]. intros E.
  inversion E as [E'].
  apply DecimalN.Unsigned.to_uint_inj.
  assert (H : Some (N.to_uint a) = Some (N.to_uint b)).
  { rewrite <- !DecimalString.NilEmpty.usu. now rewrite E'. }
  now inversion H.
Qed.

End Selector.

(** X16. A selector hands over a skill only under a level that is
    selected: without one, a click on a suggestion only raises an alert
    and changes nothing; with one, the skill is handed over carrying that
    level under the key of the selector's kind, and the level selection
    is cleared, so that the next suggestion, or a new skill, is refused
    until a level is selected again. *)
Theorem selector_needs_level_for_each_skill
    (type : SkillSelector.Kind) (skill next : SkillWithLevel) (now : N)
    (st : SkillSelector.State) :
  (SkillSelector.selectedLevel st = "" ->
   exists message,
     SkillSelector.handleSkillSelect type skill st = (st, SkillSelector.alert message)) /\
  (SkillSelector.selectedLevel st <> "" ->
   exists st' added,
     SkillSelector.handleSkillSelect type skill st
     = (st', SkillSelector.onSkillAdd added) /\
     SkillSelector.levelOf type added = Some (SkillSelector.selectedLevel st) /\
     skill_id added = skill_id skill /\
     skill_name added = skill_name skill /\
     SkillSelector.selectedLevel st' = "" /\
     (exists message,
         SkillSelector.handleSkillSelect type next st'
         = (st', SkillSelector.alert message)) /\
     (exists message,
         SkillSelector.handleAddNewSkill type now st'
         = (st', SkillSelector.alert message))).
Proof.
  unfold SkillSelector.handleSkillSelect. split; intros H.
  - rewrite H. cbn. eexists. reflexivity.
  - apply truthy_iff in H. rewrite H. cbn [negb].
    eexists _, _. split; [reflexivity|].
    split; [now destruct type|]. split; [now destruct type|].
    split; [now destruct type|]. split; [reflexivity|].
    split; [cbn; eexists; reflexivity|].
    unfold SkillSelector.handleAddNewSkill.
    cbn [SkillSelector.selectedLevel JS.truthy negb].
    rewrite orb_true_r. eexists. reflexivity.
Qed.

Lemma selector_needs_level_for_each_skill_witness :
  let st := {| SkillSelector.searchQuery := "py"; SkillSelector.showResults := true;
               SkillSelector.selectedLevel := "";
               SkillSelector.newSkillName := ""; SkillSelector.newSkillCategory := "";
               SkillSelector.showAddForm := false |} in
  let python := {| skill_id := "s1"; skill_name := "Python";
                   category := Some "Programming"; description := None;
                   proficiency_level := None; urgency_level := None |} in
  exists message,
    SkillSelector.handleSkillSelect SkillSelector.offered python st
    = (st, SkillSelector.alert message).
Proof.
  intros st python.
  apply (proj1 (selector_needs_level_for_each_skill SkillSelector.offered python python
                  0%N st)).
  reflexivity.
Defined.

(** X17. The level that reaches the server is the level the user
    selected: for every skill a selector hands over, from a suggestion or
    as a new skill, the add call of its kind carries the selected level,
    never the fallback Beginner or Medium. *)
Theorem selected_level_is_sent
    (type : SkillSelector.Kind) (skill added : SkillWithLevel) (now : N)
    (st st' : SkillSelector.State) :
  SkillSelector.handleSkillSelect type skill st = (st', SkillSelector.onSkillAdd added) \/
  SkillSelector.handleAddNewSkill type now st = (st', SkillSelector.onSkillAdd added) ->
  SkillSelector.selectedLevel st <> "" /\
  sp_level (paramsFor type added) = SkillSelector.selectedLevel st /\
  (forall p,
      ProfileEdit.sent (ProfileEdit.handleAddSkill type added p)
      = ProfileEdit.sent p
        ++ [match type with
            | SkillSelector.offered => add_offered_skill (paramsFor type added)
            | SkillSelector.wanted => add_wanted_skill (paramsFor type added)
            end]).
Proof.
  intros H.
  assert (G : SkillSelector.selectedLevel st <> "" /\
              added = SkillSelector.withLevel type (SkillSelector.selectedLevel st)
                        (SkillSelector.withLevel type (SkillSelector.selectedLevel st)
                           added)).
  { destruct H as [H|H].
    - unfold SkillSelector.handleSkillSelect in H.
      destruct (JS.truthy (SkillSelector.selectedLevel st)) eqn:T; [|discriminate].
      cbn [negb] in H. inversion H; subst. split; [now apply truthy_iff|].
      now destruct type.
    - unfold SkillSelector.handleAddNewSkill in H.
      destruct (JS.truthy (SkillSelector.selectedLevel st)) eqn:T;
        [|rewrite orb_true_r in H; discriminate].
      destruct (negb (JS.truthy (JS.trim (SkillSelector.newSkillName st))));
        [discriminate|].
      cbn [negb orb] in H. inversion H; subst. split; [now apply truthy_iff|].
      now destruct type. }
  destruct G as [Hne E]. split; [exact Hne|]. split.
  - rewrite E. apply truthy_iff in Hne.
    destruct type; cbn [paramsFor offeredParams wantedParams sp_level
                        SkillSelector.withLevel proficiency_level urgency_level
                        optOrElse]; now rewrite Hne.
  - intros p. now destruct type.
Qed.

Lemma selected_level_is_sent_witness :
  let st := {| SkillSelector.searchQuery := "py"; SkillSelector.showResults := true;
               SkillSelector.selectedLevel := "Expert";
               SkillSelector.newSkillName := ""; SkillSelector.newSkillCategory := "";
               SkillSelector.showAddForm := false |} in
  let python := {| skill_id := "s1"; skill_name := "Python";
                   category := Some "Programming"; description := None;
                   proficiency_level := None; urgency_level := None |} in
  sp_level (paramsFor SkillSelector.offered
              (SkillSelector.withLevel SkillSelector.offered "Expert" python))
  = "Expert".
Proof.
  intros st python.
  refine (proj1 (proj2 (selected_level_is_sent SkillSelector.offered python _ 0%N st _ _))).
  left. reflexivity.
Defined.

(** X18. A new skill entered by hand is handed over only with a name
    that is not blank; its name is the entered text trimmed (trimming it
    again changes nothing), its category is never empty (Other when none
    was chosen), and its temporary id is derived from the clock reading,
    so that two new skills carry the same id exactly when they were
    created at the same reading. *)
Theorem new_skill_is_well_formed
    (type : SkillSelector.Kind) (now : N) (added : SkillWithLevel)
    (st st' : SkillSelector.State) :
  SkillSelector.handleAddNewSkill type now st = (st', SkillSelector.onSkillAdd added) ->
  skill_name added = JS.trim (SkillSelector.newSkillName st) /\
  skill_name added <> "" /\
  JS.trim (skill_name added) = skill_name added /\
  (exists c, category added = Some c /\ c <> "" /\
             (SkillSelector.newSkillCategory st = "" -> c = "Other")) /\
  skill_id added = SkillSelector.tempId now /\
  (forall now', SkillSelector.tempId now' = skill_id added <-> now' = now).
Proof.
  unfold SkillSelector.handleAddNewSkill. intros H.
  destruct (JS.truthy (JS.trim (SkillSelector.newSkillName st))) eqn:T;
    [|discriminate].
  destruct (JS.truthy (SkillSelector.selectedLevel st)); [|discriminate].
  cbn [negb orb] in H. inversion H; subst. clear H.
  assert (F : forall sk, skill_name (SkillSelector.withLevel type
                                       (SkillSelector.selectedLevel st) sk)
                         = skill_name sk /\
                         category (SkillSelector.withLevel type
                                     (SkillSelector.selectedLevel st) sk)
                         = category sk /\
                         skill_id (SkillSelector.withLevel type
                                     (SkillSelector.selectedLevel st) sk)
                         = skill_id sk) by (intros sk; now destruct type).
  match goal with |- context [SkillSelector.withLevel _ _ ?sk] =>
    destruct (F sk) as (-> & -> & ->) end.
  cbn [skill_name category skill_id].
  split; [reflexivity|]. split; [now apply truthy_iff|].
  split; [apply trim_idempotent|]. split.
  - destruct (SkillSelector.newSkillCategory st) as [|c r] eqn:C.
    + exists "Other". cbn. repeat split; discriminate.
    + exists (String c r). cbn. repeat split; discriminate.
  - split; [reflexivity|]. intros now'. split.
    + apply tempId_injective.
    + now intros ->.
Qed.

Lemma new_skill_is_well_formed_witness :
  let st := {| SkillSelector.searchQuery := "ju"; SkillSelector.showResults := false;
               SkillSelector.selectedLevel := "High";
               SkillSelector.newSkillName := "  Juggling ";
               SkillSelector.newSkillCategory := "";
               SkillSelector.showAddForm := true |} in
  exists added st',
    SkillSelector.handleAddNewSkill SkillSelector.wanted 1730600000000%N st
    = (st', SkillSelector.onSkillAdd added) /\
    skill_name added = JS.trim "  Juggling " /\
    skill_id added = SkillSelector.tempId 1730600000000%N.
Proof.
  intros st. eexists _, _.
  assert (E : SkillSelector.handleAddNewSkill SkillSelector.wanted 1730600000000%N st
              = (_, SkillSelector.onSkillAdd _)) by reflexivity.
  split; [exact E|].
  destruct (new_skill_is_well_formed _ _ _ _ _ E) as (H1 & _ & _ & _ & H5 & _).
  split; [exact H1 | exact H5].
Defined.

(** ** The set-up wizard *)

Section Wizard.

Import ProfileSetup.

Lemma canProceed_step2 (s : State) :
  currentStep s = 2 -> canProceed s = true -> JS.trim (name (formData s)) <> "".
Proof.
  unfold canProceed. intros -> H. cbn in H.
  destruct (JS.trim (name (formData s))); [discriminate | discriminate].
Qed.

Lemma wizardInvariant_click (c : Click) (s : State) :
  wizardInvariant s -> wizardInvariant (click c s).
Proof.
  intros [Hr Hn]. unfold wizardInvariant.
  destruct c; cbn [click].
  - destruct (Z.eqb_spec (currentStep s) 2) as [E|E]; [|now split].
    cbn [setFormData currentStep formData]. split; [exact Hr|]. lia.
  - unfold handleNext, totalSteps.
    destruct (Z.ltb_spec (currentStep s) 5) as [L|L]; [|now split].
    cbn [andb]. destruct (canProceed s) eqn:P; [|now split].
    cbn [setCurrentStep currentStep formData]. split; [lia|]. intros H3.
    destruct (Z.eq_dec (currentStep s) 2) as [E|E].
    + now apply canProceed_step2.
    + apply Hn. lia.
  - destruct (Z.eqb_spec (currentStep s) 1) as [E|E]; [now split|].
    unfold handlePrevious.
    destruct (Z.ltb_spec 1 (currentStep s)) as [L|L]; [|now split].
    cbn [setCurrentStep currentStep formData]. split; [lia|]. intros H3.
    apply Hn. lia.
  - destruct (currentStep s =? 3); [now split|].
    destruct (currentStep s =? 4); now split.
  - destruct (currentStep s =? 3); [now split|].
    destruct (currentStep s =? 4); now split.
  - destruct (currentStep s =? 5); now split.
  - destruct (currentStep s =? 5); now split.
Qed.

Lemma wizardInvariant_clicks (cs : list Click) (s : State) :
  wizardInvariant s -> wizardInvariant (clicks cs s).
Proof.
  revert s. induction cs as [|c cs IH]; intros s H; [exact H|].
  apply IH. now apply wizardInvariant_click.
Qed.

Lemma wizardInvariant_initial : wizardInvariant initial.
Proof. split; cbn; lia. Qed.

Lemma firstn_plus {A : Type} (a b : nat) (l : list A) :
  firstn (a + b) l = firstn a l ++ firstn b (skipn a l).
Proof.
  revert l. induction a as [|a IH]; intros l; [reflexivity|].
  destruct l as [|x l]; cbn [Nat.add firstn skipn app].
  - now rewrite firstn_nil.
  - now rewrite IH.
Qed.

(** What the loop over the skills does. *)
Lemma addSkills_spec (mk : SkillWithLevel -> ProfileCall) (tag : string)
    (skills : list SkillWithLevel) (throws : list bool) :
  fst (fst (addSkills mk tag skills throws)) = map mk skills /\
  List.length (snd (fst (addSkills mk tag skills throws)))
  = List.length (filter (fun t => t) (firstn (List.length skills) throws)) /\
  snd (addSkills mk tag skills throws) = skipn (List.length skills) throws.
Proof.
  revert throws. induction skills as [|skill rest IH]; intros throws.
  - now repeat split.
  - cbn [addSkills]. specialize (IH (tl throws)).
    destruct (addSkills mk tag rest (tl throws)) as [[calls errors] later].
    cbn [fst snd] in *. destruct IH as (-> & Hlen & ->).
    destruct throws as [|t throws]; cbn [tl map List.length] in *.
    + rewrite firstn_nil in Hlen. rewrite firstn_nil, !skipn_nil.
      split; [reflexivity|]. split; [exact Hlen | reflexivity].
    + cbn [firstn skipn filter].
      split; [reflexivity|]. split; [|reflexivity].
      destruct t; cbn [List.length]; now rewrite Hlen.
Qed.

End Wizard.

(** X19. Whatever is clicked in the wizard, the step shown stays one of
    the five: the step counter never leaves the range 1 to 5, so the
    header always has a title to show. *)
Theorem wizard_step_stays_in_range (cs : list ProfileSetup.Click) :
  1 <= ProfileSetup.currentStep (ProfileSetup.clicks cs ProfileSetup.initial) <= 5.
Proof.
  exact (proj1 (wizardInvariant_clicks cs _ wizardInvariant_initial)).
Qed.

(** X20. The wizard gets beyond step 2 only with a name that is not
    blank, and the name cannot be edited after step 2; hence whenever the
    Complete Setup button is enabled, the profile it creates carries a
    name that is not blank, whatever was clicked before. *)
Theorem wizard_submits_a_name
    (cs : list ProfileSetup.Click) (created : Reply) (throws : list bool) :
  let s := ProfileSetup.clicks cs ProfileSetup.initial in
  (3 <= ProfileSetup.currentStep s -> JS.trim (name (ProfileSetup.formData s)) <> "") /\
  (ProfileSetup.submitEnabled s = true ->
   ProfileSetup.currentStep s = 5 /\
   forall params,
     In (create_profile params)
        (ProfileSetup.calls (ProfileSetup.handleSubmit s created throws)) ->
     pp_name params = name (ProfileSetup.formData s) /\
     JS.trim (pp_name params) <> "").
Proof.
  intros s.
  destruct (wizardInvariant_clicks cs _ wizardInvariant_initial) as [Hr Hn].
  fold s in Hr, Hn. split; [exact Hn|].
  intros He. unfold ProfileSetup.submitEnabled, ProfileSetup.totalSteps in He.
  apply andb_true_iff in He. destruct He as [He _].
  destruct (Z.ltb_spec (ProfileSetup.currentStep s) 5) as [L|L]; [discriminate|].
  split; [lia|]. intros params Hin.
  assert (E : params = profileParams (ProfileSetup.formData s)).
  { unfold ProfileSetup.handleSubmit in Hin.
    destruct created as [[|]|];
      try (cbn in Hin; destruct Hin as [Hin|[ ]]; now inversion Hin).
    destruct (ProfileSetup.addSkills _ _ (ProfileSetup.offeredSkills s) throws)
      as [[calls1 errors1] later] eqn:E1.
    destruct (ProfileSetup.addSkills _ _ (ProfileSetup.wantedSkills s) later)
      as [[calls2 errors2] later2] eqn:E2.
    cbn [ProfileSetup.calls In] in Hin. destruct Hin as [Hin|Hin]; [now inversion Hin|].
    pose proof (addSkills_spec (fun skill => add_offered_skill (offeredParams skill))
                  "Error adding offered skill:"
                  (ProfileSetup.offeredSkills s) throws) as (H1 & _).
    pose proof (addSkills_spec (fun skill => add_wanted_skill (wantedParams skill))
                  "Error adding wanted skill:"
                  (ProfileSetup.wantedSkills s) later) as (H2 & _).
    rewrite E1 in H1. rewrite E2 in H2. cbn [fst] in H1, H2. subst calls1 calls2.
    apply in_app_or in Hin.
    destruct Hin as [Hin|Hin]; apply in_map_iff in Hin;
      destruct Hin as (sk & Hsk & _); discriminate. }
  subst params. cbn [profileParams pp_name]. split; [reflexivity|].
  apply Hn. lia.
Qed.

(** The name Ann is entered on step 2 and the wizard is walked to its
    last step. *)
Lemma wizard_submits_a_name_witness :
  let s := ProfileSetup.clicks
             [ProfileSetup.ClickNext; ProfileSetup.TypeInput field_name "Ann";
              ProfileSetup.ClickNext; ProfileSetup.ClickNext;
              ProfileSetup.ClickNext] ProfileSetup.initial in
  ProfileSetup.currentStep s = 5 /\
  JS.trim (name (ProfileSetup.formData s)) <> "".
Proof.
  intros s.
  destruct (wizard_submits_a_name
              [ProfileSetup.ClickNext; ProfileSetup.TypeInput field_name "Ann";
               ProfileSetup.ClickNext; ProfileSetup.ClickNext;
               ProfileSetup.ClickNext] (replied true) []) as [Hname Hsubmit].
  split.
  - apply Hsubmit. reflexivity.
  - apply Hname. vm_compute. discriminate.
Defined.

(** X21. Submitting the wizard: when creating the profile fails (a
    response that is not ok, or an exception) nothing else is sent, one
    failure toast is raised and the wizard stays where it is; when it
    succeeds, one add call goes out for every offered and then every
    wanted skill, in order, whether or not earlier ones throw, every
    throw is only logged, and the success toast and the move to the app
    follow in any case. *)
Theorem submit_sends_profile_then_skills
    (s : ProfileSetup.State) (created : Reply) (throws : list bool) :
  let done := ProfileSetup.handleSubmit s created throws in
  (created <> replied true ->
   ProfileSetup.calls done = [create_profile (profileParams (ProfileSetup.formData s))] /\
   ProfileSetup.navigatedTo done = None /\
   ProfileSetup.toasts done
   = [toast_failure "Failed to create profile. Please try again."]) /\
  (created = replied true ->
   ProfileSetup.calls done
   = create_profile (profileParams (ProfileSetup.formData s))
     :: map (fun skill => add_offered_skill (offeredParams skill))
            (ProfileSetup.offeredSkills s)
     ++ map (fun skill => add_wanted_skill (wantedParams skill))
            (ProfileSetup.wantedSkills s) /\
   ProfileSetup.navigatedTo done = Some "/App" /\
   (exists message, ProfileSetup.toasts done = [toast_success message]) /\
   List.length (ProfileSetup.consoleErrors done)
   = List.length
       (filter (fun t => t)
          (firstn (List.length (ProfileSetup.offeredSkills s)
                   + List.length (ProfileSetup.wantedSkills s)) throws))).
Proof.
  cbv zeta. split.
  - intros Hne. unfold ProfileSetup.handleSubmit.
    destruct created as [[|]|]; [congruence | now repeat split ..].
  - intros ->. unfold ProfileSetup.handleSubmit.
    pose proof (addSkills_spec (fun skill => add_offered_skill (offeredParams skill))
                  "Error adding offered skill:"
                  (ProfileSetup.offeredSkills s) throws) as (H1 & L1 & R1).
    destruct (ProfileSetup.addSkills _ _ (ProfileSetup.offeredSkills s) throws)
      as [[calls1 errors1] later].
    pose proof (addSkills_spec (fun skill => add_wanted_skill (wantedParams skill))
                  "Error adding wanted skill:"
                  (ProfileSetup.wantedSkills s) later) as (H2 & L2 & R2).
    destruct (ProfileSetup.addSkills _ _ (ProfileSetup.wantedSkills s) later)
      as [[calls2 errors2] later2].
    cbn [fst snd] in *. subst calls1 calls2 later.
    cbn [ProfileSetup.calls ProfileSetup.navigatedTo ProfileSetup.toasts
         ProfileSetup.consoleErrors].
    split; [reflexivity|]. split; [reflexivity|]. split; [eexists; reflexivity|].
    rewrite length_app, L1, L2, firstn_plus, filter_app, length_app.
    reflexivity.
Qed.

Lemma submit_sends_profile_then_skills_witness :
  ProfileSetup.calls (ProfileSetup.handleSubmit ProfileSetup.initial threw [])
  = [create_profile (profileParams (ProfileSetup.formData ProfileSetup.initial))] /\
  ProfileSetup.navigatedTo (ProfileSetup.handleSubmit ProfileSetup.initial threw [])
  = None.
Proof.
  destruct (submit_sends_profile_then_skills ProfileSetup.initial threw []) as [Hfail _].
  destruct Hfail as (H1 & H2 & _); [discriminate|].
  split; [exact H1 | exact H2].
Defined.

(** ** The profile editor *)

Section Editor.

Import ProfileEdit.

Lemma length_filter_without {A : Type} (f : A -> bool) (i : nat) (l : list A) (k : A) :
  nth_error l i = Some k ->
  List.length (filter f l)
  = (List.length (filter f (firstn i l ++ skipn (S i) l))
     + (if f k then 1 else 0))%nat.
Proof.
  revert i. induction l as [|x l IH]; intros i H.
  - destruct i; discriminate.
  - destruct i as [|i].
    + cbn in H. inversion H; subst. cbn [firstn skipn app filter].
      destruct (f k); cbn [List.length]; lia.
    + cbn [nth_error] in H. specialize (IH i H).
      cbn [firstn app filter]. change (skipn (S (S i)) (x :: l)) with (skipn (S i) l).
      destruct (f x); cbn [List.length]; lia.
Qed.

Lemma saveInvariant_step (e : Event) (p : Page) :
  saveInvariant p -> saveInvariant (step e p).
Proof.
  intros [Hn Hsent]. destruct e; cbn [step]; try (split; assumption).
  - destruct (saveDisabled (st p)) eqn:D; [now split|].
    unfold saveDisabled in D. apply orb_false_iff in D. destruct D as [D1 D2].
    apply negb_false_iff, truthy_iff in D2. rewrite D1 in Hn. split.
    + unfold savesAwaiting in *.
      cbn [handleSaveProfile call setState awaiting st isSaving setIsSaving].
      rewrite filter_app, length_app, Hn. reflexivity.
    + cbn [handleSaveProfile call setState sent].
      apply Forall_app. split; [exact Hsent|].
      constructor; [exact D2 | constructor].
  - split.
    + unfold savesAwaiting in *.
      cbn [handleAddSkill call awaiting st]. rewrite filter_app, length_app, Hn.
      cbn. lia.
    + cbn [handleAddSkill call sent]. apply Forall_app. split; [exact Hsent|].
      destruct type; repeat constructor.
  - split.
    + unfold savesAwaiting in *.
      cbn [handleRemoveSkill call awaiting st]. rewrite filter_app, length_app, Hn.
      cbn. lia.
    + cbn [handleRemoveSkill call sent]. apply Forall_app. split; [exact Hsent|].
      destruct type; repeat constructor.
  - unfold resume. destruct (nth_error (awaiting p) index) as [k|] eqn:E;
      [|now split].
    unfold savesAwaiting in Hn.
    rewrite (length_filter_without _ index (awaiting p) k E) in Hn.
    destruct k as [|type skill|type skillId].
    + split.
      * unfold savesAwaiting.
        destruct reply as [[|]|];
          cbn [handleSaveProfile_resume toast setState awaiting st isSaving setIsSaving];
          destruct (isSaving (st p)); lia.
      * now destruct reply as [[|]|].
    + split.
      * unfold savesAwaiting.
        destruct reply as [[|]|]; destruct type;
          cbn [handleAddSkill_resume toast setState awaiting st isSaving setSkills
               setOfferedSkills setWantedSkills];
          rewrite <- Hn; lia.
      * now destruct reply as [[|]|].
    + split.
      * unfold savesAwaiting.
        destruct reply as [[|]|]; destruct type;
          cbn [handleRemoveSkill_resume toast setState awaiting st isSaving setSkills
               setOfferedSkills setWantedSkills];
          rewrite <- Hn; lia.
      * now destruct reply as [[|]|].
Qed.

Lemma saveInvariant_run (events : list Event) (p : Page) :
  saveInvariant p -> saveInvariant (run events p).
Proof.
  revert p. induction events as [|e events IH]; intros p H; [exact H|].
  apply IH. now apply saveInvariant_step.
Qed.

Lemma withoutSkill_absent (skillId : string) (l : list SkillWithLevel) :
  SkillSelector.isSkillSelected l skillId = false -> withoutSkill skillId l = l.
Proof.
  induction l as [|s l IH]; [reflexivity|].
  cbn [SkillSelector.isSkillSelected existsb withoutSkill filter]. intros H.
  apply orb_false_iff in H. destruct H as [H1 H2]. rewrite H1. cbn [negb].
  f_equal. now apply IH.
Qed.

Lemma withoutSkill_added (skill : SkillWithLevel) (l : list SkillWithLevel) :
  withoutSkill (skill_id skill) (l ++ [skill]) = withoutSkill (skill_id skill) l.
Proof.
  unfold withoutSkill. rewrite filter_app. cbn [filter].
  rewrite String.eqb_refl. cbn [negb]. apply app_nil_r.
Qed.

End Editor.

(** X22. Saves never overlap in the profile editor: whatever the user
    does and whatever replies arrive, at most one update call awaits its
    reply, the saving flag is up exactly while one does, and every update
    call that was sent carries a name that is not blank. *)
Theorem editor_saves_one_at_a_time
    (f : FormData) (offered wanted : list SkillWithLevel)
    (events : list ProfileEdit.Event) :
  let p := ProfileEdit.run events (ProfileEdit.loaded f offered wanted) in
  (ProfileEdit.savesAwaiting p <= 1)%nat /\
  (ProfileEdit.isSaving (ProfileEdit.st p) = true <-> ProfileEdit.savesAwaiting p = 1%nat) /\
  (forall params,
      In (update_profile params) (ProfileEdit.sent p) ->
      JS.trim (pp_name params) <> "").
Proof.
  intros p.
  assert (H : saveInvariant p).
  { apply saveInvariant_run. split; [reflexivity | constructor]. }
  destruct H as [Hn Hsent]. split; [|split].
  - rewrite Hn. destruct (ProfileEdit.isSaving (ProfileEdit.st p)); lia.
  - rewrite Hn. destruct (ProfileEdit.isSaving (ProfileEdit.st p)); split;
      congruence.
  - intros params Hin. rewrite Forall_forall in Hsent. exact (Hsent _ Hin).
Qed.

(** X23. A skill list of the profile editor changes only on a reply that
    is ok: an add or a remove that fails (a response that is not ok, or
    an exception) leaves both lists as they are and raises one failure
    toast. An add that succeeds puts the skill at the end of the list of
    its kind; a remove by id that succeeds then takes away every entry
    with that id, so the list is as before when no entry had that id. *)
Theorem editor_skill_lists_follow_replies
    (type : SkillSelector.Kind) (skill : SkillWithLevel) (reply : Reply)
    (p : ProfileEdit.Page) :
  (reply <> replied true ->
   ProfileEdit.st (ProfileEdit.handleAddSkill_resume type skill reply p)
   = ProfileEdit.st p /\
   ProfileEdit.st (ProfileEdit.handleRemoveSkill_resume type (skill_id skill) reply p)
   = ProfileEdit.st p /\
   (exists message,
       ProfileEdit.toasts (ProfileEdit.handleAddSkill_resume type skill reply p)
       = ProfileEdit.toasts p ++ [toast_failure message]) /\
   (exists message,
       ProfileEdit.toasts
         (ProfileEdit.handleRemoveSkill_resume type (skill_id skill) reply p)
       = ProfileEdit.toasts p ++ [toast_failure message])) /\
  (let added := ProfileEdit.handleAddSkill_resume type skill (replied true) p in
   let removed := ProfileEdit.handleRemoveSkill_resume type (skill_id skill)
                    (replied true) added in
   ProfileEdit.skillsOf type (ProfileEdit.st added)
   = ProfileEdit.skillsOf type (ProfileEdit.st p) ++ [skill] /\
   ProfileEdit.skillsOf type (ProfileEdit.st removed)
   = withoutSkill (skill_id skill) (ProfileEdit.skillsOf type (ProfileEdit.st p)) /\
   (SkillSelector.isSkillSelected (ProfileEdit.skillsOf type (ProfileEdit.st p))
      (skill_id skill) = false ->
    ProfileEdit.skillsOf type (ProfileEdit.st removed)
    = ProfileEdit.skillsOf type (ProfileEdit.st p))).
Proof.
  split.
  - intros Hne.
    destruct reply as [[|]|]; [congruence | ..];
      (split; [reflexivity|]); (split; [reflexivity|]);
      split; eexists; reflexivity.
  - cbv zeta.
    assert (E : ProfileEdit.skillsOf type
                  (ProfileEdit.st
                     (ProfileEdit.handleRemoveSkill_resume type (skill_id skill)
                        (replied true)
                        (ProfileEdit.handleAddSkill_resume type skill (replied true) p)))
                = withoutSkill (skill_id skill)
                    (ProfileEdit.skillsOf type (ProfileEdit.st p))).
    { destruct type; cbn; apply withoutSkill_added. }
    split; [now destruct type|]. split; [exact E|].
    intros H. rewrite E. now apply withoutSkill_absent.
Qed.

Lemma editor_skill_lists_follow_replies_witness :
  let p := ProfileEdit.loaded
             {| name := "Ann"; location := ""; profilePhotoUrl := "";
                availability := []; isPublic := true |} [] [] in
  let python := {| skill_id := "s1"; skill_name := "Python";
                   category := Some "Programming"; description := None;
                   proficiency_level := Some "Expert"; urgency_level := None |} in
  ProfileEdit.st (ProfileEdit.handleAddSkill_resume SkillSelector.offered python
                    (replied false) p)
  = ProfileEdit.st p.
Proof.
  intros p python.
  destruct (editor_skill_lists_follow_replies SkillSelector.offered python
              (replied false) p) as [Hfail _].
  destruct Hfail as (H & _); [discriminate | exact H].
Defined.

(** ** From the request to its failure *)

Section Failure.




End Failure.



